(** * grcov-to-markdown: the README assembler of the gearbox repository

    A shallow embedding of [src/grcov-to-markdown.py] and the properties its
    specification states about it.

    Layout
    - [Py]: the Python built-ins the script calls ([str] methods, [int],
      [float], [round], float formatting), exceptions as values.
    - [Re]: a backtracking matcher for the fragment of [re] the script's one
      pattern uses, and [findall].
    - [Bs4]: the parsed document tree and the three BeautifulSoup queries
      ([find_all], [find], [.text]).
    - [Script]: the functions of the script, one definition per [def].
    - [Demo]: a concrete host (files, external tool, parser table) on which
      the script is evaluated.
    - [Spec]: the Coverage Record of the specification and its statements
      as predicates.
    - [Further]: what the further properties need: the run in which
      [open] refuses a path, a host that records the writes.
    - the lemmas, then the properties C1 to C10, then the further
      properties X1 to X17.

    Characters are one-byte code points (the Latin-1 range of Python's [str]);
    text read from a file is the decoded text Python's [read()] returns. *)

From Stdlib Require Import Bool Ascii String List ZArith Lia.
From Stdlib Require Import DecimalString DecimalPos.
From Stdlib Require DecimalFacts DecimalN.
From Stdlib Require Import SpecFloat.
Import ListNotations.

Local Open Scope string_scope.
Local Open Scope Z_scope.

(* ===================================================================== *)
(** * Python built-ins *)
(* ===================================================================== *)

Module Py.

(** The exception classes the script can meet.  None is caught by the script
    except [CalledProcessError], which never leaves [run_cargo_readme]. *)
Inductive exn : Set :=
| ValueError
| AttributeError
| OverflowError
| IndexError
| OSError.

(** A computation that returns or raises. *)
Inductive result (A : Type) : Type :=
| Ok (a : A)
| Raise (e : exn).
Arguments Ok {A} a.
Arguments Raise {A} e.

Definition bind {A B} (r : result A) (k : A -> result B) : result B :=
  match r with
  | Ok a => k a
  | Raise e => Raise e
  end.

Declare Scope py_scope.
Delimit Scope py_scope with py.
Notation "x <- r ;; k" := (bind r (fun x => k))
  (at level 61, r at next level, right associativity) : py_scope.

(** ** Characters *)

Definition LF : ascii := "010"%char.

Definition ord (c : ascii) : nat := nat_of_ascii c.

Definition in_range (lo hi : nat) (c : ascii) : bool :=
  (Nat.leb lo (ord c) && Nat.leb (ord c) hi)%bool.

(** [str.isspace] on one character, for code points below 256:
    TAB LF VT FF CR, FS GS RS US, SPACE, NEL (0x85) and NBSP (0xA0). *)
Definition isspace (c : ascii) : bool :=
  (in_range 9 13 c || in_range 28 32 c
   || Nat.eqb (ord c) 133 || Nat.eqb (ord c) 160)%bool.

(** The white space [int()] and [float()] skip around a literal: the Unicode
    spaces above 126 become a blank first, then C's [isspace] applies, so
    the separators FS..US are not skipped. *)
Definition isspace_numeric (c : ascii) : bool :=
  (in_range 9 13 c || Nat.eqb (ord c) 32
   || Nat.eqb (ord c) 133 || Nat.eqb (ord c) 160)%bool.

Definition isdigit (c : ascii) : bool := in_range 48 57 c.

(** ASCII lower-casing, for the case-insensitive [inf] and [nan]. *)
Definition lower (c : ascii) : ascii :=
  if in_range 65 90 c then ascii_of_nat (ord c + 32) else c.

Fixpoint lower_str (s : string) : string :=
  match s with
  | EmptyString => EmptyString
  | String c s' => String (lower c) (lower_str s')
  end.

(** ** [str] methods *)

Fixpoint lstrip_by (p : ascii -> bool) (s : string) : string :=
  match s with
  | EmptyString => EmptyString
  | String c s' => if p c then lstrip_by p s' else s
  end.

Fixpoint rstrip_by (p : ascii -> bool) (s : string) : string :=
  match s with
  | EmptyString => EmptyString
  | String c s' =>
      match rstrip_by p s' with
      | EmptyString => if p c then EmptyString else String c EmptyString
      | r => String c r
      end
  end.

Definition strip_by (p : ascii -> bool) (s : string) : string :=
  rstrip_by p (lstrip_by p s).

(** [s.strip()] *)
Definition strip (s : string) : string := strip_by isspace s.

Fixpoint mem_char (c : ascii) (chars : string) : bool :=
  match chars with
  | EmptyString => false
  | String d chars' => (Ascii.eqb c d || mem_char c chars')%bool
  end.

(** [s.strip(chars)] *)
Definition strip_chars (chars s : string) : string :=
  strip_by (fun c => mem_char c chars) s.

(** [s.endswith(suffix)] *)
Definition endswith (suffix s : string) : bool :=
  let n := String.length s in
  let k := String.length suffix in
  (Nat.leb k n && String.eqb (String.substring (n - k) k s) suffix)%bool.

(** [old in s] *)
Fixpoint contains (old s : string) : bool :=
  (String.prefix old s
   || match s with
      | EmptyString => false
      | String _ s' => contains old s'
      end)%bool.

(** [s.replace(old, new)] for a non-empty [old]: scan from the left; at an
    occurrence of [old] emit [new] and step over the occurrence ([skip]
    counts the characters of it still to step over). *)
Fixpoint replace_from (old new : string) (skip : nat) (s : string) : string :=
  match s with
  | EmptyString => EmptyString
  | String c s' =>
      match skip with
      | S k => replace_from old new k s'
      | O =>
          if String.prefix old s
          then new ++ replace_from old new (String.length old - 1) s'
          else String c (replace_from old new 0 s')
      end
  end.

(** With an empty [old] Python puts [new] before every character and at
    the end. *)
Fixpoint intersperse (new s : string) : string :=
  match s with
  | EmptyString => new
  | String c s' => new ++ String c (intersperse new s')
  end.

Definition replace (old new s : string) : string :=
  match old with
  | EmptyString => intersperse new s
  | String _ _ => replace_from old new 0 s
  end.

(** [s.split(sep)] for a non-empty [sep] (an empty one raises in Python and
    is not used by the script). *)
Fixpoint split_from (sep : string) (skip : nat) (s : string) : list string :=
  match s with
  | EmptyString => [EmptyString]
  | String c s' =>
      match skip with
      | S k => split_from sep k s'
      | O =>
          if String.prefix sep s
          then EmptyString :: split_from sep (String.length sep - 1) s'
          else match split_from sep 0 s' with
               | w :: ws => String c w :: ws
               | [] => [String c EmptyString]
               end
      end
  end.

Definition split (sep s : string) : list string := split_from sep 0 s.

(** [s.count(c)] for a one-character [c]. *)
Fixpoint count_char (c : ascii) (s : string) : nat :=
  match s with
  | EmptyString => O
  | String d s' => ((if Ascii.eqb d c then 1 else 0) + count_char c s')%nat
  end.

(** [s.splitlines()] with LF as the only line boundary: the lines without
    their ends; a last line need not be ended. *)
Fixpoint lines (s : string) : list string :=
  match s with
  | EmptyString => []
  | String c s' =>
      if Ascii.eqb c LF then EmptyString :: lines s'
      else match lines s' with
           | l :: ls => String c l :: ls
           | [] => [String c EmptyString]
           end
  end.

(** [l[i]] *)
Definition item {A} (i : nat) (l : list A) : result A :=
  match nth_error l i with
  | Some a => Ok a
  | None => Raise IndexError
  end.

(** ** [int] *)

(** [str(n)], for an [n] of at most 4300 digits ([str] raises beyond).  The
    integers the script prints stay below: they were read by [int()] from a
    literal of at most as many digits, or rounded from a binary64. *)
Definition str_of_int (n : Z) : string := NilZero.string_of_int (Z.to_int n).

(** The digit-group rule shared by [int()] and [float()]: an underscore may
    stand only between two digits.  Returns the text without underscores. *)
Fixpoint drop_underscores (prev : ascii) (s : string) : option string :=
  match s with
  | EmptyString => if Ascii.eqb prev "_" then None else Some EmptyString
  | String c s' =>
      if Ascii.eqb c "_" then
        if isdigit prev then drop_underscores c s' else None
      else if (Ascii.eqb prev "_" && negb (isdigit c))%bool then None
      else option_map (String c) (drop_underscores c s')
  end.

Fixpoint all_digits (s : string) : bool :=
  match s with
  | EmptyString => true
  | String c s' => (isdigit c && all_digits s')%bool
  end.

(** A non-empty run of decimal digits as a number. *)
Definition digits_value (s : string) : option Z :=
  match s with
  | EmptyString => None
  | String _ _ =>
      if all_digits s then option_map Z.of_uint (NilEmpty.uint_of_string s)
      else None
  end.

(** An optional sign: [(negative, rest)]. *)
Definition split_sign (s : string) : bool * string :=
  match s with
  | String "-" s' => (true, s')
  | String "+" s' => (false, s')
  | _ => (false, s)
  end.

(** [sys.get_int_max_str_digits()] as the interpreter starts: the longest
    run of digits [int()] reads and [str()] prints. *)
Definition max_str_digits : Z := 4300.

(** The number of decimal digits of [n]. *)
Definition int_digits (n : Z) : nat := Decimal.nb_digits (N.to_uint (Z.abs_N n)).

(** [int(s)] for a [str], base 10.  A literal of more than
    [max_str_digits] digits, leading zeros counted and underscores not, is
    refused like a malformed one. *)
Definition int_of_str (s : string) : result Z :=
  let (neg, body) := split_sign (strip_by isspace_numeric s) in
  match drop_underscores "000"%char body with
  | None => Raise ValueError
  | Some ds =>
      match digits_value ds with
      | None => Raise ValueError
      | Some n =>
          if max_str_digits <? Z.of_nat (String.length ds) then Raise ValueError
          else Ok (if neg then - n else n)
      end
  end.

(** ** [float]

    A Python [float] is an IEEE 754 binary64 value: [spec_float] with a
    mantissa below [2^53] and an exponent between [-1074] and [971]. *)

Definition float : Set := spec_float.

(** Nearest integer to [num / den], ties to the even one ([0 < den]). *)
Definition round_half_even (num den : Z) : Z :=
  let q := num / den in
  match 2 * (num mod den) ?= den with
  | Lt => q
  | Gt => q + 1
  | Eq => if Z.even q then q else q + 1
  end.

(** [den * 2^e <= num], for either sign of [e]. *)
Definition ge_pow2 (num den e : Z) : bool :=
  if 0 <=? e then den * 2 ^ e <=? num else den <=? num * 2 ^ (- e).

(** The binary64 value nearest to the rational [num / den] ([0 <= num],
    [0 < den]), ties to even: what a correctly rounded decimal-to-binary
    conversion returns. *)
Definition nearest_binary64 (neg : bool) (num den : Z) : float :=
  if num =? 0 then S754_zero neg
  else
    let e0 := Z.log2 num - Z.log2 den in
    let e := if ge_pow2 num den e0 then e0 else e0 - 1 in
    let ex := Z.max (e - 52) (-1074) in
    let m := if 0 <=? ex then round_half_even num (den * 2 ^ ex)
             else round_half_even (num * 2 ^ (- ex)) den in
    if m =? 0 then S754_zero neg
    else
      let '(m', ex') := if m =? 2 ^ 53 then (2 ^ 52, ex + 1) else (m, ex) in
      if 971 <? ex' then S754_infinity neg
      else S754_finite neg (Z.to_pos m') ex'.

(** The float nearest to [d * 10^q]. *)
Definition decimal_to_float (neg : bool) (d q : Z) : float :=
  if 0 <=? q then nearest_binary64 neg (d * 10 ^ q) 1
  else nearest_binary64 neg d (10 ^ (- q)).

(** The longest prefix of digits and the rest. *)
Fixpoint span_digits (s : string) : string * string :=
  match s with
  | EmptyString => (EmptyString, EmptyString)
  | String c s' =>
      if isdigit c then let (ds, r) := span_digits s' in (String c ds, r)
      else (EmptyString, s)
  end.

(** The exponent part of a literal: empty, or [e] or [E], an optional sign
    and at least one digit. *)
Definition parse_exponent (s : string) : option Z :=
  match s with
  | EmptyString => Some 0
  | String c s' =>
      if Ascii.eqb (lower c) "e" then
        let (neg, ds) := split_sign s' in
        option_map (fun n => if neg then - n else n) (digits_value ds)
      else None
  end.

(** A decimal literal without sign: digits, an optional point, digits (one
    digit at least), an optional exponent. *)
Definition parse_decimal (neg : bool) (s : string) : option float :=
  let (ip, r1) := span_digits s in
  let (fp, r2) := match r1 with
                  | String "." r => span_digits r
                  | _ => (EmptyString, r1)
                  end in
  match digits_value (ip ++ fp), parse_exponent r2 with
  | Some d, Some ex => Some (decimal_to_float neg d (ex - Z.of_nat (String.length fp)))
  | _, _ => None
  end.

Definition parse_float_literal (s : string) : option float :=
  let (neg, body) := split_sign s in
  let low := lower_str body in
  if (String.eqb low "inf" || String.eqb low "infinity")%bool
  then Some (S754_infinity neg)
  else if String.eqb low "nan" then Some S754_nan
  else parse_decimal neg body.

(** [float(s)] for a [str]. *)
Definition float_of_str (s : string) : result float :=
  match drop_underscores "000"%char (strip_by isspace_numeric s) with
  | None => Raise ValueError
  | Some u =>
      match parse_float_literal u with
      | None => Raise ValueError
      | Some x => Ok x
      end
  end.

(** The exact value of a finite float as a fraction [float_num / float_den]. *)
Definition float_num (x : float) : Z :=
  match x with
  | S754_finite s m e =>
      let n := if 0 <=? e then Zpos m * 2 ^ e else Zpos m in
      if s then - n else n
  | _ => 0
  end.

Definition float_den (x : float) : Z :=
  match x with
  | S754_finite _ _ e => if 0 <=? e then 1 else 2 ^ (- e)
  | _ => 1
  end.

Definition is_finite (x : float) : bool :=
  match x with
  | S754_zero _ | S754_finite _ _ _ => true
  | S754_infinity _ | S754_nan => false
  end.

(** [round(x)] with one argument: an [int], ties to even; NaN and the
    infinities raise. *)
Definition round (x : float) : result Z :=
  match x with
  | S754_nan => Raise ValueError
  | S754_infinity _ => Raise OverflowError
  | _ => Ok (round_half_even (float_num x) (float_den x))
  end.

(** ** [str(x)] for a float: the shortest decimal text that reads back as
    [x], in Python's [repr] layout. *)

Definition ndigits (n : Z) : Z := Z.of_nat (String.length (str_of_int n)).

(** [k] such that [10^k <= num / den < 10^(k+1)]. *)
Definition decimal_exponent (num den : Z) : Z :=
  if den <=? num then ndigits (num / den) - 1
  else - ndigits ((den - 1) / num).

Definition same_finite (m : positive) (e : Z) (y : float) : bool :=
  match y with
  | S754_finite false m' e' => (Pos.eqb m m' && Z.eqb e e')%bool
  | _ => false
  end.

(** Searching the number [n] of significant digits upwards from [18 - fuel]:
    the two [n]-digit decimals around the value are tried, and of those that
    read back as the float the nearer is taken (ties to the even digit).
    Returns [(d, u)] for the decimal [d * 10^u]. *)
Fixpoint shortest_from (fuel : nat) (m : positive) (e k : Z) : Z * Z :=
  let x := S754_finite false m e in
  let n := 18 - Z.of_nat fuel in
  let u := k - n + 1 in
  let sn := if 0 <=? u then float_num x else float_num x * 10 ^ (- u) in
  let sd := if 0 <=? u then float_den x * 10 ^ u else float_den x in
  let lo := sn / sd in
  match fuel with
  | O => (round_half_even sn sd, u)
  | S fuel' =>
      let lo_ok := same_finite m e (decimal_to_float false lo u) in
      let hi_ok := same_finite m e (decimal_to_float false (lo + 1) u) in
      match lo_ok, hi_ok with
      | true, true => (round_half_even sn sd, u)
      | true, false => (lo, u)
      | false, true => (lo + 1, u)
      | false, false => shortest_from fuel' m e k
      end
  end.

Fixpoint zeros (n : nat) : string :=
  match n with
  | O => EmptyString
  | S n' => String "0" (zeros n')
  end.

(** The exponent of the scientific layout: a sign and two digits at least. *)
Definition repr_exponent (ex : Z) : string :=
  let a := str_of_int (Z.abs ex) in
  (if ex <? 0 then "e-" else "e+")
  ++ (if Nat.ltb (String.length a) 2 then "0" else "") ++ a.

(** Layout of the digits [ds] with the decimal point [decpt] places after
    their start. *)
Definition repr_layout (ds : string) (decpt : Z) : string :=
  let len := String.length ds in
  if ((decpt <=? -4) || (16 <? decpt))%bool then
    String.substring 0 1 ds
    ++ (if Nat.ltb 1 len then "." ++ String.substring 1 (len - 1) ds else "")
    ++ repr_exponent (decpt - 1)
  else if decpt <=? 0 then "0." ++ zeros (Z.to_nat (- decpt)) ++ ds
  else if decpt <? Z.of_nat len then
    String.substring 0 (Z.to_nat decpt) ds ++ "."
    ++ String.substring (Z.to_nat decpt) (len - Z.to_nat decpt) ds
  else ds ++ zeros (Z.to_nat decpt - len) ++ ".0".

Definition repr_positive (m : positive) (e : Z) : string :=
  let x := S754_finite false m e in
  let '(d, u) := shortest_from 17 m e (decimal_exponent (float_num x) (float_den x)) in
  let ds := str_of_int d in
  repr_layout (rstrip_by (Ascii.eqb "0") ds) (u + Z.of_nat (String.length ds)).

Definition str_of_float (x : float) : string :=
  match x with
  | S754_nan => "nan"
  | S754_infinity s => if s then "-inf" else "inf"
  | S754_zero s => if s then "-0.0" else "0.0"
  | S754_finite s m e => (if s then "-" else "") ++ repr_positive m e
  end.

End Py.

(* ===================================================================== *)
(** * The fragment of [re] used by the script *)
(* ===================================================================== *)

Module Re.

Inductive regex : Set :=
| Str (lit : string)            (* literal characters, escapes resolved *)
| NotChar (c : ascii)           (* a negated one-character class *)
| Cat (r1 r2 : regex)
| Alt (r1 r2 : regex)           (* r1|r2, r1 tried first *)
| Plus (r : regex)              (* r+, greedy *)
| Group (i : nat) (r : regex).  (* the i-th pair of capturing parentheses *)

Definition captures : Set := list (nat * string).

Fixpoint group (i : nat) (caps : captures) : string :=
  match caps with
  | [] => EmptyString
  | (j, v) :: caps' => if Nat.eqb i j then v else group i caps'
  end.

Fixpoint drop (n : nat) (s : string) : string :=
  match n, s with
  | S n', String _ s' => drop n' s'
  | _, _ => s
  end.

(** The part of [s] in front of its suffix [rest]. *)
Definition consumed (s rest : string) : string :=
  String.substring 0 (String.length s - String.length rest) s.

(** Backtracking matcher in continuation style: [run r s caps k] matches [r]
    at the start of [s] and hands the rest and the captures to [k]; when [k]
    fails the next alternative is tried, in the order of Python's engine
    (left branch first, longest repetition first). *)
Fixpoint run {R : Type} (r : regex) (s : string) (caps : captures)
    (k : string -> captures -> option R) {struct r} : option R :=
  match r with
  | Str lit =>
      if String.prefix lit s then k (drop (String.length lit) s) caps else None
  | NotChar c =>
      match s with
      | String d s' => if Ascii.eqb d c then None else k s' caps
      | EmptyString => None
      end
  | Cat r1 r2 => run r1 s caps (fun s1 c1 => run r2 s1 c1 k)
  | Alt r1 r2 =>
      match run r1 s caps k with
      | Some x => Some x
      | None => run r2 s caps k
      end
  | Plus r1 =>
      (fix loop (fuel : nat) (s0 : string) (c0 : captures) : option R :=
         run r1 s0 c0 (fun s1 c1 =>
           match fuel with
           | O => k s1 c1
           | S fuel' =>
               if Nat.ltb (String.length s1) (String.length s0) then
                 match loop fuel' s1 c1 with
                 | Some x => Some x
                 | None => k s1 c1
                 end
               else k s1 c1
           end)) (String.length s) s caps
  | Group i r1 => run r1 s caps (fun s1 c1 => k s1 ((i, consumed s s1) :: c1))
  end.

(** A match at the very start of [s]: the rest and the captures. *)
Definition match_at (r : regex) (s : string) : option (string * captures) :=
  run r s [] (fun rest caps => Some (rest, caps)).

(** The tuple [findall] returns for a match of a pattern with [n > 1]
    groups: the text of groups [1..n]. *)
Definition groups (n : nat) (caps : captures) : list string :=
  map (fun i => group i caps) (seq 1 n).

(** [re.findall]: the matches that do not overlap, from the left.  After a
    match of [n] characters the scan resumes behind it ([skip] counts the
    characters still to step over).  Patterns that match the empty string
    are outside this fragment. *)
Fixpoint findall_from (r : regex) (n : nat) (skip : nat) (s : string)
    : list (list string) :=
  match s with
  | EmptyString => []
  | String _ s' =>
      match skip with
      | S k => findall_from r n k s'
      | O =>
          match match_at r s with
          | Some (rest, caps) =>
              groups n caps
              :: findall_from r n (String.length s - String.length rest - 1) s'
          | None => findall_from r n 0 s'
          end
      end
  end.

Definition findall (r : regex) (n : nat) (s : string) : list (list string) :=
  findall_from r n 0 s.

(** What a successful run means: [matches r w caps caps'] says that [r]
    matches the word [w] and extends the captures [caps] to [caps']. *)
Inductive matches : regex -> string -> captures -> captures -> Prop :=
| M_Str lit caps :
    matches (Str lit) lit caps caps
| M_NotChar c d caps :
    Ascii.eqb d c = false ->
    matches (NotChar c) (String d EmptyString) caps caps
| M_Cat r1 r2 w1 w2 caps caps1 caps2 :
    matches r1 w1 caps caps1 -> matches r2 w2 caps1 caps2 ->
    matches (Cat r1 r2) (w1 ++ w2) caps caps2
| M_AltLeft r1 r2 w caps caps' :
    matches r1 w caps caps' -> matches (Alt r1 r2) w caps caps'
| M_AltRight r1 r2 w caps caps' :
    matches r2 w caps caps' -> matches (Alt r1 r2) w caps caps'
| M_PlusOnce r w caps caps' :
    matches r w caps caps' -> matches (Plus r) w caps caps'
| M_PlusMore r w1 w2 caps caps1 caps2 :
    matches r w1 caps caps1 -> matches (Plus r) w2 caps1 caps2 ->
    matches (Plus r) (w1 ++ w2) caps caps2
| M_Group i r w caps caps' :
    matches r w caps caps' -> matches (Group i r) w caps ((i, w) :: caps').

End Re.

(* ===================================================================== *)
(** * The parsed document: BeautifulSoup's tree *)
(* ===================================================================== *)

Module Bs4.

(** What [BeautifulSoup(file, "html.parser")] builds: tags with their
    children, text and comments.  [Comment] stands for every kind of string
    that [.text] leaves out.  Attributes play no part in the script. *)
#[warnings="-register-all"]
Inductive node : Set :=
| NavigableString (s : string)
| Comment (s : string)
| Tag (name : string) (contents : list node).

(** [.descendants]: every node below, in document order. *)
Fixpoint descendants (n : node) : list node :=
  match n with
  | Tag _ cs =>
      (fix below (l : list node) : list node :=
         match l with
         | [] => []
         | c :: l' => c :: descendants c ++ below l'
         end) cs
  | _ => []
  end.

Definition is_tag (name : string) (n : node) : bool :=
  match n with
  | Tag t _ => String.eqb t name
  | _ => false
  end.

(** [n.find_all(name)] *)
Definition find_all (name : string) (n : node) : list node :=
  filter (is_tag name) (descendants n).

(** [n.find(name)]: the first one, or [None]. *)
Definition find (name : string) (n : node) : option node :=
  hd_error (find_all name n).

Definition own_string (n : node) : string :=
  match n with
  | NavigableString s => s
  | _ => EmptyString
  end.

(** [tag.text]: the strings below, joined; comments are left out. *)
Definition text (n : node) : string :=
  String.concat EmptyString (map own_string (descendants n)).

(** The soup object itself: a tag named [[document]]. *)
Definition soup (contents : list node) : node := Tag "[document]" contents.

End Bs4.

(* ===================================================================== *)
(** * The host: file system, external tool, HTML parser *)
(* ===================================================================== *)

(** How [subprocess.run(cmd, capture_output=True, text=True, check=True)]
    ends. *)
Inductive completed : Set :=
| Completed (stdout : string)                   (* exit status 0 *)
| CalledProcessError (message stderr : string)  (* another exit status;
                                                   [message] is [str(e)] *)
| LaunchError (e : Py.exn).                     (* [run] itself raised *)

(** What the script asks of its surroundings.  [W] is the state of the
    world outside the process. *)
Class Host (W : Type) : Type := {
  (** [os.path.exists(p)] *)
  path_exists : W -> string -> bool;
  (** [open(p, 'r')] and [read()] *)
  read_text : W -> string -> Py.result string;
  (** [open(p, 'w')] and [write(content)], on a path that can be opened *)
  write_text : W -> string -> string -> W;
  (** [subprocess.run(cmd, ...)] *)
  subprocess_run : W -> list string -> completed * W;
  (** [BeautifulSoup(text, "html.parser")] *)
  html_parser : string -> Bs4.node
}.

(* ===================================================================== *)
(** * The script *)
(* ===================================================================== *)

Module Script.
Import Py Bs4.

Section WithHost.
Context {W : Type} {host : Host W}.

(** The process while it runs: the world and what was printed, one entry
    per [print]. *)
Record state : Type := State { world : W; console : list string }.

(** A statement: from a state to a returned value or a raised exception,
    and the state reached. *)
Definition M (A : Type) : Type := state -> result A * state.

Definition ret {A} (a : A) : M A := fun st => (Ok a, st).

Definition raise {A} (e : exn) : M A := fun st => (Raise e, st).

Definition mbind {A B} (c : M A) (k : A -> M B) : M B :=
  fun st =>
    match c st with
    | (Ok a, st') => k a st'
    | (Raise e, st') => (Raise e, st')
    end.

Definition lift {A} (r : result A) : M A := fun st => (r, st).

Definition print (line : string) : M unit :=
  fun st => (Ok tt, State (world st) (console st ++ [line])%list).

End WithHost.

Declare Scope script_scope.
Delimit Scope script_scope with script.
Notation "x <- c ;; k" := (mbind c (fun x => k))
  (at level 61, c at next level, right associativity) : script_scope.
Notation "c ;; k" := (mbind c (fun _ => k))
  (at level 61, right associativity) : script_scope.

Section Functions.
Context {W : Type} {host : Host W}.

(** [None], [''] and ['...'] as conditions. *)
Definition truthy (v : option string) : bool :=
  match v with
  | Some (String _ _) => true
  | _ => false
  end.

(** lines 7-18 *)
Definition run_cargo_readme (args : option (list string)) : M (option string) :=
  let cmd := (["cargo"; "readme"]
              ++ match args with Some a => a | None => [] end)%list in
  fun st =>
    let (outcome, w') := subprocess_run (world st) cmd in
    let st' := State w' (console st) in
    match outcome with
    | Completed stdout => ret (Some stdout) st'
    | CalledProcessError message stderr =>
        (print ("An error occurred while running 'cargo readme': " ++ message) ;;
         print ("Error output: " ++ stderr) ;;
         ret None)%script st'
    | LaunchError e => raise e st'
    end.

(** lines 21-24, on a path that can be opened for writing. *)
Definition write_to_file (file_path content : string) : M unit :=
  fun st => (Ok tt, State (write_text (world st) file_path content) (console st)).

(** lines 27-30 *)
Definition read_file (file_path : string) : M string :=
  fun st => (read_text (world st) file_path, st).

(** lines 33-36 *)
Definition generate_header : string :=
  "| File | Coverage Bar | Line Coverage | Lines Covered | Lines Total |" ++ String LF
  ("|------|--------------|---------------|---------------|-------------|" ++ String LF "").

(** lines 45-48 *)
Definition generate_bar (coverage : float) : result string :=
  (coverage_int <- round coverage ;;
   Ok ("![](https://geps.dev/progress/" ++ str_of_int coverage_int ++ ")"))%py.

(** lines 39-42 *)
Definition generate_row (file_name : string) (line_coverage : float)
    (lines_covered lines_total : Z) : result string :=
  (coverage_bar <- generate_bar line_coverage ;;
   Ok ("| " ++ file_name ++ " | " ++ coverage_bar ++ " | "
       ++ str_of_float line_coverage ++ "% | " ++ str_of_int lines_covered
       ++ " | " ++ str_of_int lines_total ++ " |" ++ String LF ""))%py.

(** [a, b = map(int, parts)]: [map] is lazy, so [int] runs as the unpacking
    asks for the items, a third one included. *)
Definition unpack_two_ints (parts : list string) : result (Z * Z) :=
  match parts with
  | [] => Raise ValueError
  | a :: [] => (_ <- int_of_str a ;; Raise ValueError)%py
  | a :: b :: more =>
      (x <- int_of_str a ;;
       y <- int_of_str b ;;
       match more with
       | [] => Ok (x, y)
       | c :: _ => (_ <- int_of_str c ;; Raise ValueError)
       end)%py
  end.

(** lines 59-65, the loop over [rows[1:]] with [markdown_report] as its
    variable. *)
Fixpoint report_rows (rows : list node) (markdown_report : string)
    : result string :=
  match rows with
  | [] => Ok markdown_report
  | row :: rows' =>
      let cells := find_all "td" row in
      if Nat.leb 6 (List.length cells) then
        (th <- match find "th" row with
               | Some t => Ok t
               | None => Raise AttributeError
               end ;;
         let file_name := strip (text th) in
         cell1 <- item 1 cells ;;
         line_coverage <- float_of_str (strip_chars "%" (strip (text cell1))) ;;
         cell2 <- item 2 cells ;;
         ints <- unpack_two_ints (split "/" (strip (text cell2))) ;;
         r <- generate_row file_name line_coverage (fst ints) (snd ints) ;;
         report_rows rows' (markdown_report ++ r))%py
      else report_rows rows' markdown_report
  end.

(** lines 56-67, on the parsed document. *)
Definition report_of_soup (soup : node) : result string :=
  let rows := find_all "tr" soup in
  report_rows (tl rows) generate_header.

(** lines 51-67 *)
Definition parse_html_coverage_report (html_file : string) : M string :=
  (file <- read_file html_file ;;
   lift (report_of_soup (html_parser file)))%script.

Definition test_status_marker : string := "[See Test Status](./TEST_STATUS.md)".

(** lines 70-72 *)
Definition replace_test_status (readme_content test_status_content : string)
    : string :=
  replace test_status_marker test_status_content readme_content.

(** line 77: [\(\[docs: ([^\]]+)\]\(\./([^\)]+\.(md|rs))\)\)] *)
Definition docs_pattern : Re.regex :=
  Re.Cat (Re.Str "([docs: ")
 (Re.Cat (Re.Group 1 (Re.Plus (Re.NotChar "]")))
 (Re.Cat (Re.Str "](./")
 (Re.Cat (Re.Group 2
            (Re.Cat (Re.Plus (Re.NotChar ")"))
            (Re.Cat (Re.Str ".")
                    (Re.Group 3 (Re.Alt (Re.Str "md") (Re.Str "rs"))))))
         (Re.Str "))")))).

(** The text line 96 looks for: [f'([docs: {doc_text}](./{file_name}))'] *)
Definition placeholder (doc_text file_name : string) : string :=
  "([docs: " ++ doc_text ++ "](./" ++ file_name ++ "))".

(** lines 81-99, the body of the loop for one match. *)
Definition resolve_match (mt : list string) (readme_content : string)
    : M string :=
  (file_name <- lift (item 1 mt) ;;
   doc_text <- lift (item 0 mt) ;;
   fun st =>
     if path_exists (world st) file_name then
       (file_content <-
          (if endswith ".rs" file_name then
             print ("Generating markdown content for: " ++ file_name) ;;
             run_cargo_readme
               (Some ["-i"; file_name; "--no-template"; "--no-license";
                      "--no-badges"; "--no-title"])
           else
             print ("Generating markdown content for: " ++ file_name) ;;
             content <- read_file file_name ;;
             ret (Some content)) ;;
        if truthy file_content then
          print ("Replacing " ++ file_name ++ " with generated markdown content.") ;;
          ret (replace (placeholder doc_text file_name)
                       (match file_content with Some c => c | None => "" end)
                       readme_content)
        else ret readme_content) st
     else
       (print ("Referenced file not found: " ++ file_name) ;;
        ret readme_content) st)%script.

(** lines 80-99, the loop. *)
Fixpoint resolve_matches (matches : list (list string)) (readme_content : string)
    : M string :=
  match matches with
  | [] => ret readme_content
  | mt :: matches' =>
      (readme_content' <- resolve_match mt readme_content ;;
       resolve_matches matches' readme_content')%script
  end.

(** lines 75-101 *)
Definition replace_docs_links (readme_content : string) : M string :=
  let matches := Re.findall docs_pattern 3 readme_content in
  resolve_matches matches readme_content.

Definition html_file : string := ".artifacts/coverage/html/index.html".

(** lines 104-121 *)
Definition main : M unit :=
  (readme_content <- run_cargo_readme None ;;
   match readme_content with
   | None => ret tt
   | Some readme_content =>
       write_to_file "README.md" readme_content ;;
       fun st =>
         if negb (path_exists (world st) html_file) then
           (print ("HTML report file not found: " ++ html_file) ;;
            ret tt) st
         else
           (markdown_report <- parse_html_coverage_report html_file ;;
            let readme_content := replace_test_status readme_content markdown_report in
            readme_content <- replace_docs_links readme_content ;;
            write_to_file "README.md" readme_content ;;
            write_to_file "TEST_STATUS.md" markdown_report ;;
            print "README.md and TEST_STATUS.md have been generated successfully.") st
   end)%script.

(** The exit status of the process for lines 124-125: [0] when [main]
    returns, [1] when an exception leaves it. *)
Definition exit_status {A} (r : result A) : Z :=
  match r with
  | Ok _ => 0
  | Raise _ => 1
  end.

(** One run of the script in the world [w]. *)
Definition run_script (w : W) : result unit * state := main (State w []).

End Functions.
End Script.

(* ===================================================================== *)
(** * A concrete host *)
(* ===================================================================== *)

Module Demo.
Import Py Bs4 Script.

(** Files by path, and the external tool as a function of its command
    line. *)
Record machine : Type := Machine {
  files : list (string * string);
  tool : list string -> completed
}.

Fixpoint lookup (p : string) (fs : list (string * string)) : option string :=
  match fs with
  | [] => None
  | (q, c) :: fs' => if String.eqb p q then Some c else lookup p fs'
  end.

Fixpoint store (p c : string) (fs : list (string * string))
    : list (string * string) :=
  match fs with
  | [] => [(p, c)]
  | (q, d) :: fs' =>
      if String.eqb p q then (p, c) :: fs' else (q, d) :: store p c fs'
  end.

Definition cell (s : string) : node := Tag "td" [NavigableString s].

(** A report of one table: a header row and the row of [lib.rs]. *)
Definition report_html : string :=
  "<table><tr><th>File</th><th>Coverage</th></tr><tr><th>lib.rs</th><td></td><td>80.0%</td><td>8/10</td><td>100%</td><td>2/2</td><td></td></tr></table>".

Definition lib_row : node :=
  Tag "tr" [Tag "th" [NavigableString "lib.rs"];
            Tag "td" []; cell "80.0%"; cell "8/10"; cell "100%"; cell "2/2";
            Tag "td" []].

Definition header_row : node :=
  Tag "tr" [Tag "th" [NavigableString "File"];
            Tag "th" [NavigableString "Coverage"]].

Definition report_soup : node := soup [Tag "table" [header_row; lib_row]].

(** The parser on the one document the runs below read; any other text is
    taken as a document without tags. *)
Definition parse (text : string) : node :=
  if String.eqb text report_html then report_soup
  else soup [NavigableString text].

#[global] Instance demo_host : Host machine := {
  path_exists w p := match lookup p (files w) with Some _ => true | None => false end;
  read_text w p := match lookup p (files w) with Some c => Ok c | None => Raise OSError end;
  write_text w p c := Machine (store p c (files w)) (tool w);
  subprocess_run w cmd := (tool w cmd, w);
  html_parser := parse
}.

(** The tool of the end-to-end scenario: it prints a title and the marker. *)
Definition title_tool (cmd : list string) : completed :=
  Completed ("# Title" ++ String LF (test_status_marker ++ String LF "")).

(** A tool that exits with status 1. *)
Definition failing_tool (cmd : list string) : completed :=
  CalledProcessError
    "Command '['cargo', 'readme']' returned non-zero exit status 1."
    "error: could not find `Cargo.toml`".

(** A tool that succeeds and prints nothing. *)
Definition silent_tool (cmd : list string) : completed := Completed "".

Definition with_report : machine := Machine [(html_file, report_html)] title_tool.
Definition without_report : machine := Machine [] title_tool.
Definition tool_fails : machine := Machine [(html_file, report_html)] failing_tool.
Definition tool_silent : machine := Machine [(html_file, report_html)] silent_tool.

(** A second table: its header row and the row of [main.rs]. *)
Definition main_row : node :=
  Tag "tr" [Tag "th" [NavigableString "main.rs"];
            Tag "td" []; cell "50%"; cell "1 / 2"; cell "0%"; cell "0/1";
            Tag "td" []].

Definition first_table : node := Tag "table" [header_row; lib_row].
Definition second_table : node := Tag "table" [header_row; main_row].

(** A document with its tables at different depths, and its report. *)
Definition nested_tables : node :=
  soup [Tag "html" [Tag "body" [first_table; Tag "div" [second_table]]]].

Definition nested_report : string :=
  generate_header
  ++ "| lib.rs | ![](https://geps.dev/progress/80) | 80.0% | 8 | 10 |" ++ String LF
     ("| main.rs | ![](https://geps.dev/progress/50) | 50.0% | 1 | 2 |" ++ String LF "").

(** A row of three cells. *)
Definition short_row : node :=
  Tag "tr" [Tag "th" [NavigableString "total"]; cell "x"; cell "y"; cell "z"].

(** Documents with docs references, and the files they name. *)
Definition notes_doc : string := "See ([docs: Example](./NOTES.md)) and ([docs: Example](./NOTES.md)).".

Definition with_notes : machine := Machine [("NOTES.md", "Hello")] title_tool.
Definition with_empty_notes : machine := Machine [("NOTES.md", "")] title_tool.

(** A reference whose path text ends in another, shorter reference. *)
Definition nested_doc : string :=
  "([docs: a](./x.md)) ([docs: L](./foo([docs: a](./x.md))".

Definition with_x : machine := Machine [("x.md", "Hi")] title_tool.

Definition missing_doc : string := "Intro ([docs: Guide](./GUIDE.md)) end".

End Demo.

(* ===================================================================== *)
(** * The statements of the specification, as predicates *)
(* ===================================================================== *)

Module Spec.
Import Py Bs4 Script.

(** The bar for a coverage written as the text [s]. *)
Definition bar_of_text (s : string) : result string :=
  (x <- float_of_str s ;; generate_bar x)%py.

(** [str(float(s))] *)
Definition float_round_trip (s : string) : result string :=
  (x <- float_of_str s ;; Ok (str_of_float x))%py.

Definition bar_image (n : Z) : string :=
  "![](https://geps.dev/progress/" ++ str_of_int n ++ ")".

(** Step 1 counts as failed when the tool does not end with status 0 or
    prints nothing. *)
Definition tool_failed_or_silent (outcome : completed) : Prop :=
  match outcome with
  | Completed EmptyString => True
  | Completed (String _ _) => False
  | CalledProcessError _ _ => True
  | LaunchError _ => True
  end.

(** "Fatal": the run ends with a status other than 0 and leaves the world
    as the tool left it. *)
Definition fatal_on_tool_failure {W} {host : Host W} (w : W) : Prop :=
  tool_failed_or_silent (fst (subprocess_run w ["cargo"; "readme"])) ->
  exit_status (fst (run_script w)) <> 0
  /\ world (snd (run_script w)) = snd (subprocess_run w ["cargo"; "readme"]).

(** The Coverage Record of a row: what lines 62-64 read from it. *)
Record coverage_record : Set := Coverage {
  file_name : string;
  line_coverage : float;
  lines_covered : Z;
  lines_total : Z
}.

Definition record_of_row (row : node) : result coverage_record :=
  let cells := find_all "td" row in
  (th <- match find "th" row with
         | Some t => Ok t
         | None => Raise AttributeError
         end ;;
   cell1 <- item 1 cells ;;
   line_coverage <- float_of_str (strip_chars "%" (strip (text cell1))) ;;
   cell2 <- item 2 cells ;;
   ints <- unpack_two_ints (split "/" (strip (text cell2))) ;;
   Ok (Coverage (strip (text th)) line_coverage (fst ints) (snd ints)))%py.

(** [n] stands below [root]: it is one of its children, or stands below
    one of them. *)
Inductive below (n : node) : node -> Prop :=
| below_child (name : string) (contents : list node) :
    In n contents -> below n (Tag name contents)
| below_deeper (name : string) (contents : list node) (c : node) :
    In c contents -> below n c -> below n (Tag name contents).

(** A row counts when it has six [td] cells or more. *)
Definition valid_row (row : node) : bool :=
  Nat.leb 6 (List.length (find_all "td" row)).

(** The rows the loop renders: the valid ones behind the first row. *)
Definition data_rows (soup : node) : list node :=
  filter valid_row (tl (find_all "tr" soup)).

(** The line of the table for a record whose coverage rounds to [n]. *)
Definition row_line (r : coverage_record) (n : Z) : string :=
  "| " ++ file_name r ++ " | " ++ bar_image n ++ " | "
  ++ str_of_float (line_coverage r) ++ "% | " ++ str_of_int (lines_covered r)
  ++ " | " ++ str_of_int (lines_total r) ++ " |".

Definition header_line : string :=
  "| File | Coverage Bar | Line Coverage | Lines Covered | Lines Total |".

Definition separator_line : string :=
  "|------|--------------|---------------|---------------|-------------|".

(** What one turn of the loop appends: nothing for a short row. *)
Definition row_markdown (row : node) : result string :=
  if valid_row row then
    (r <- record_of_row row ;;
     generate_row (file_name r) (line_coverage r) (lines_covered r) (lines_total r))%py
  else Ok "".

Fixpoint rows_markdown (rows : list node) : result string :=
  match rows with
  | [] => Ok ""
  | row :: rows' =>
      (r <- row_markdown row ;;
       rest <- rows_markdown rows' ;;
       Ok (r ++ rest))%py
  end.

(** "N valid rows give N + 1 lines." *)
Definition n_plus_one_lines (soup : node) : Prop :=
  forall table, report_of_soup soup = Ok table ->
    List.length (lines table) = (List.length (data_rows soup) + 1)%nat.

(** "Rows come from the first table only": the other tables of the
    document add nothing to the report of the first. *)
Definition first_table_only (table1 : node) (others : list node) : Prop :=
  report_of_soup (soup (table1 :: others)) = report_of_soup (soup [table1]).

(** The text under the two header lines for records with their rounded
    coverages. *)
Definition table_body (recs : list (coverage_record * Z)) : string :=
  fold_right (fun rn rest => row_line (fst rn) (snd rn) ++ String LF rest) "" recs.

(** [rn] is the record of [row] with its rounded coverage, and its file name
    stays on one line. *)
Definition renders_as (row : node) (rn : coverage_record * Z) : Prop :=
  record_of_row row = Ok (fst rn)
  /\ round (line_coverage (fst rn)) = Ok (snd rn)
  /\ count_char LF (file_name (fst rn)) = O.

(** "A placeholder whose path is missing is left verbatim in the output." *)
Definition missing_left_verbatim {W} {host : Host W} (w : W) (doc : string) : Prop :=
  forall label path ext,
    In [label; path; ext] (Re.findall docs_pattern 3 doc) ->
    path_exists w path = false ->
    exists out st',
      replace_docs_links doc (State w []) = (Ok out, st')
      /\ contains (placeholder label path) out = true.

(** "A placeholder whose markdown file exists is replaced by the content of
    the file, at every occurrence", read on the documents all of whose
    matches are that placeholder. *)
Definition markdown_link_replaced {W} {host : Host W} (w : W) (doc : string) : Prop :=
  forall label path ext content,
    In [label; path; ext] (Re.findall docs_pattern 3 doc) ->
    Forall (eq [label; path; ext]) (Re.findall docs_pattern 3 doc) ->
    path_exists w path = true ->
    endswith ".md" path = true ->
    read_text w path = Ok content ->
    exists st',
      replace_docs_links doc (State w []) =
      (Ok (replace (placeholder label path) content doc), st').

(** The diagnostics of the loop over the matches. *)
Definition not_found (path : string) : string :=
  "Referenced file not found: " ++ path.

Definition generating (path : string) : string :=
  "Generating markdown content for: " ++ path.

Definition replacing (path : string) : string :=
  "Replacing " ++ path ++ " with generated markdown content.".

End Spec.

(* ===================================================================== *)
(** * Further definitions: the rest of the script's behaviour *)
(* ===================================================================== *)

Module Further.
Import Py Bs4 Script.

(** The command line of lines 87-88 for the source file [path]. *)
Definition scoped_command (path : string) : list string :=
  ["cargo"; "readme"; "-i"; path; "--no-template"; "--no-license";
   "--no-badges"; "--no-title"].

(** The order in which a greedy run of single characters hands its splits
    of [w ++ rest] to what follows: the longest one first. *)
Fixpoint longest_first {R : Type} (k : string -> option R) (w rest : string)
    : option R :=
  match w with
  | EmptyString => None
  | String _ w' =>
      match longest_first k w' rest with
      | Some x => Some x
      | None => k (w' ++ rest)
      end
  end.

(** The characters [str(n)] and [str(x)] are made of. *)
Definition numeric_chars : string := "0123456789-+.einfa".

(** A host that keeps the list of the writes made so far beside the world
    of another host, which it leaves to answer everything else. *)
Definition recording {W : Type} (host : Host W) : Host (W * list (string * string)) := {|
  path_exists w p := path_exists (fst w) p;
  read_text w p := read_text (fst w) p;
  write_text w p c := (write_text (fst w) p c, (snd w ++ [(p, c)])%list);
  subprocess_run w cmd :=
    (fst (subprocess_run (fst w) cmd), (snd (subprocess_run (fst w) cmd), snd w));
  html_parser := html_parser
|}.

(** [open(file_path, 'w')] raises an [OSError] on a path that cannot be
    opened for writing (a directory, a missing parent directory, a file
    without the permission) and writes nothing then; [write_to_file] of
    [Script] is the call on a path that can.  [refused w path] tells the
    paths the world [w] refuses. *)
Section RefusedWrites.
Context {W : Type} {host : Host W}.
Variable refused : W -> string -> bool.

(** lines 21-24, the failure of [open] included. *)
Definition write_to_file_checked (file_path content : string) : M unit :=
  fun st =>
    if refused (world st) file_path then (Raise OSError, st)
    else write_to_file file_path content st.

(** lines 104-121 over it. *)
Definition main_checked : M unit :=
  (readme_content <- run_cargo_readme None ;;
   match readme_content with
   | None => ret tt
   | Some readme_content =>
       write_to_file_checked "README.md" readme_content ;;
       fun st =>
         if negb (path_exists (world st) html_file) then
           (print ("HTML report file not found: " ++ html_file) ;;
            ret tt) st
         else
           (markdown_report <- parse_html_coverage_report html_file ;;
            let readme_content := replace_test_status readme_content markdown_report in
            readme_content <- replace_docs_links readme_content ;;
            write_to_file_checked "README.md" readme_content ;;
            write_to_file_checked "TEST_STATUS.md" markdown_report ;;
            print "README.md and TEST_STATUS.md have been generated successfully.") st
   end)%script.

End RefusedWrites.

(** The writes a state of the recording host has seen. *)
Definition written {W : Type}
    (st : state (W := W * list (string * string))) : list (string * string) :=
  snd (world st).

(** Concrete inputs for the properties below. *)

(** A row of six cells without a [th]. *)
Definition headless_row : node :=
  Tag "tr" [Tag "td" [NavigableString "util.rs"]; Demo.cell "10%";
            Demo.cell "1/10"; Demo.cell "0%"; Demo.cell "0/1"; Tag "td" []].

Definition broken_report : node :=
  soup [Tag "table" [Demo.header_row; Demo.lib_row; headless_row; Demo.main_row]].

Definition lib_line : string :=
  "| lib.rs | ![](https://geps.dev/progress/80) | 80.0% | 8 | 10 |".

(** A document with a reference to a source file. *)
Definition api_doc : string := "([docs: Api](./lib.rs))".

Definition with_lib : Demo.machine :=
  Demo.Machine [("lib.rs", "//! The crate.")] Demo.title_tool.

(** A tool that prints [api_doc] in step 1 and cannot be run afterwards. *)
Definition vanishing_tool (cmd : list string) : completed :=
  match cmd with
  | [_; _] => Completed api_doc
  | _ => LaunchError OSError
  end.

Definition tool_vanishes : Demo.machine :=
  Demo.Machine [(html_file, Demo.report_html); ("lib.rs", "//! The crate.")]
    vanishing_tool.

End Further.

(* ===================================================================== *)
(** * Lemmas on the built-ins *)
(* ===================================================================== *)

Import Py Bs4 Script Spec.

Section StringFacts.

Lemma append_empty_r (s : string) : s ++ "" = s.
Proof. induction s as [|c s IH]; simpl; [reflexivity | now rewrite IH]. Qed.

Lemma append_assoc (a b c : string) : (a ++ b) ++ c = a ++ b ++ c.
Proof. induction a as [|x a IH]; simpl; [reflexivity | now rewrite IH]. Qed.

Lemma length_append (a b : string) :
  String.length (a ++ b) = (String.length a + String.length b)%nat.
Proof. induction a as [|x a IH]; simpl; [reflexivity | now rewrite IH]. Qed.

(** Where [old] does not occur, [replace] changes nothing. *)
Lemma replace_from_absent (old new s : string) :
  contains old s = false -> replace_from old new 0 s = s.
Proof.
  induction s as [|c s IH]; intros Hno; [reflexivity|].
  cbn [contains] in Hno. apply orb_false_iff in Hno as [Hp Hrest].
  cbn [replace_from]. rewrite Hp, (IH Hrest). reflexivity.
Qed.

Lemma replace_absent (old new s : string) :
  contains old s = false -> replace old new s = s.
Proof.
  destruct old as [|c old]; intros Hno.
  - destruct s; discriminate Hno.
  - now apply replace_from_absent.
Qed.

End StringFacts.

Section RoundingFacts.

Lemma float_den_pos (x : float) : 0 < float_den x.
Proof.
  destruct x as [s|s| |s m e]; cbn; try lia.
  destruct (0 <=? e) eqn:He; [lia|].
  apply Z.pow_pos_nonneg; lia.
Qed.

(** [round_half_even] is a nearest integer. *)
Lemma round_half_even_nearest (num den : Z) :
  0 < den ->
  Z.abs (2 * num - 2 * round_half_even num den * den) <= den.
Proof.
  intros Hden. unfold round_half_even.
  pose proof (Z.div_mod num den ltac:(lia)) as Hdm.
  pose proof (Z.mod_pos_bound num den Hden) as Hr.
  destruct (Z.compare_spec (2 * (num mod den)) den) as [Heq|Hlt|Hgt].
  - destruct (Z.even (num / den)); nia.
  - nia.
  - nia.
Qed.

(** At a value half-way between [k] and [k + 1] the even one is taken. *)
Lemma round_half_even_tie (num den k : Z) :
  0 < den -> 2 * num = (2 * k + 1) * den ->
  let n := round_half_even num den in
  Z.even n = true /\ (n = k \/ n = k + 1).
Proof.
  intros Hden Hhalf. cbv zeta. unfold round_half_even.
  assert (Hq : num / den = k).
  { symmetry. apply (Z.div_unique_pos num den k (num - k * den)); nia. }
  assert (Hr : num mod den = num - k * den).
  { pose proof (Z.div_mod num den ltac:(lia)). rewrite Hq in *. lia. }
  rewrite Hq, Hr.
  replace (2 * (num - k * den) ?= den) with Eq
    by (symmetry; apply Z.compare_eq_iff; lia).
  destruct (Z.even k) eqn:Hk.
  - split; [assumption | now left].
  - split; [|now right].
    rewrite Z.even_add, Hk. reflexivity.
Qed.

Lemma round_finite (x : float) :
  is_finite x = true ->
  round x = Ok (round_half_even (float_num x) (float_den x)).
Proof. destruct x; cbn; intros H; try discriminate H; reflexivity. Qed.

End RoundingFacts.

(* ===================================================================== *)
(** * The properties of the specification *)
(* ===================================================================== *)

(** ** Coverage bar *)

(** C5. For every finite coverage value the bar is the image reference
    [![](https://geps.dev/progress/<n>)] where [n] is an integer nearest to
    the value (at most one half away from it); NaN and the infinities have no
    bar.  The coverages 66.7, 100.0 and 0.0 give 67, 100 and 0. *)
Theorem generate_bar_nearest_integer :
  (forall x : float, is_finite x = true ->
     exists n : Z,
       generate_bar x = Ok ("![](https://geps.dev/progress/" ++ str_of_int n ++ ")")
       /\ Z.abs (2 * float_num x - 2 * n * float_den x) <= float_den x)
  /\ (forall x : float, is_finite x = false -> exists e, generate_bar x = Raise e)
  /\ bar_of_text "66.7" = Ok "![](https://geps.dev/progress/67)"
  /\ bar_of_text "100.0" = Ok "![](https://geps.dev/progress/100)"
  /\ bar_of_text "0.0" = Ok "![](https://geps.dev/progress/0)".
Proof.
  split; [|split; [|repeat split; reflexivity]].
  - intros x Hfin. exists (round_half_even (float_num x) (float_den x)).
    unfold generate_bar. rewrite (round_finite x Hfin). cbn [bind].
    split; [reflexivity|].
    apply round_half_even_nearest, float_den_pos.
  - intros [s|s| |s m e] Hfin; try discriminate Hfin; cbn; eauto.
Qed.

Lemma generate_bar_nearest_integer_witness :
  exists n : Z,
    generate_bar (S754_finite false 4693595236650189 (-46))
    = Ok ("![](https://geps.dev/progress/" ++ str_of_int n ++ ")")
    /\ Z.abs (2 * float_num (S754_finite false 4693595236650189 (-46))
              - 2 * n * float_den (S754_finite false 4693595236650189 (-46)))
       <= float_den (S754_finite false 4693595236650189 (-46)).
Proof.
  apply (proj1 generate_bar_nearest_integer). reflexivity.
Defined.

(** C10. A coverage exactly half-way between the integers [k] and [k + 1]
    gets the even one of the two as its bar integer: 0.5 gives 0, 1.5 gives
    2 and 2.5 gives 2, where rounding half up would give 1, 2 and 3. *)
Theorem generate_bar_ties_to_even :
  (forall (x : float) (k : Z),
     is_finite x = true ->
     2 * float_num x = (2 * k + 1) * float_den x ->
     exists n : Z,
       generate_bar x = Ok (bar_image n)
       /\ Z.even n = true /\ (n = k \/ n = k + 1))
  /\ bar_of_text "0.5" = Ok "![](https://geps.dev/progress/0)"
  /\ bar_of_text "1.5" = Ok "![](https://geps.dev/progress/2)"
  /\ bar_of_text "2.5" = Ok "![](https://geps.dev/progress/2)".
Proof.
  split; [|repeat split; reflexivity].
  intros x k Hfin Hhalf.
  exists (round_half_even (float_num x) (float_den x)).
  unfold generate_bar. rewrite (round_finite x Hfin). cbn [bind].
  split; [reflexivity|].
  apply round_half_even_tie; [apply float_den_pos | exact Hhalf].
Qed.

Lemma generate_bar_ties_to_even_witness :
  exists n : Z,
    generate_bar (S754_finite false 4503599627370496 (-53)) = Ok (bar_image n)
    /\ Z.even n = true /\ (n = 0 \/ n = 0 + 1).
Proof.
  apply (proj1 generate_bar_ties_to_even); reflexivity.
Defined.

(** ** Fixed marker *)

(** C9. A document in which the marker [[See Test Status](./TEST_STATUS.md)]
    does not occur is returned unchanged by [replace_test_status]. *)
Theorem replace_test_status_without_marker (readme_content table : string) :
  contains test_status_marker readme_content = false ->
  replace_test_status readme_content table = readme_content.
Proof. intros Hno. now apply replace_absent. Qed.

Lemma replace_test_status_without_marker_witness :
  replace_test_status "# Title" (generate_header) = "# Title".
Proof.
  apply replace_test_status_without_marker. reflexivity.
Defined.

(** ** The assembler *)

Section Assembler.
Context {W : Type} {host : Host W}.

Lemma run_cargo_readme_completed (args : option (list string)) st stdout w' :
  subprocess_run (world st)
    (["cargo"; "readme"] ++ match args with Some a => a | None => [] end)%list
  = (Completed stdout, w') ->
  run_cargo_readme args st = (Ok (Some stdout), State w' (console st)).
Proof. intros H. unfold run_cargo_readme. rewrite H. reflexivity. Qed.

Lemma run_cargo_readme_failed (args : option (list string)) st message stderr w' :
  subprocess_run (world st)
    (["cargo"; "readme"] ++ match args with Some a => a | None => [] end)%list
  = (CalledProcessError message stderr, w') ->
  run_cargo_readme args st
  = (Ok None,
     State w' (console st
               ++ [("An error occurred while running 'cargo readme': " ++ message)%string;
                   ("Error output: " ++ stderr)%string])%list).
Proof.
  intros H. unfold run_cargo_readme. rewrite H.
  cbn. rewrite <- app_assoc. reflexivity.
Qed.

Lemma run_cargo_readme_not_launched (args : option (list string)) st e w' :
  subprocess_run (world st)
    (["cargo"; "readme"] ++ match args with Some a => a | None => [] end)%list
  = (LaunchError e, w') ->
  run_cargo_readme args st = (Raise e, State w' (console st)).
Proof. intros H. unfold run_cargo_readme. rewrite H. reflexivity. Qed.

End Assembler.

(** C2, as the code has it.  When the tool ends with a status other than 0,
    [main] prints its two diagnostics and returns at once: nothing is
    written, no later step runs, and the process ends with status 0.  When
    the tool cannot be run at all, the exception leaves [main]: nothing is
    written and the status is 1. *)
Theorem main_stops_when_tool_fails {W : Type} {host : Host W} (w w' : W) :
  (forall message stderr,
     subprocess_run w ["cargo"; "readme"] = (CalledProcessError message stderr, w') ->
     run_script w
     = (Ok tt,
        State w' ["An error occurred while running 'cargo readme': " ++ message;
                  "Error output: " ++ stderr])
     /\ exit_status (fst (run_script w)) = 0)
  /\ (forall e,
        subprocess_run w ["cargo"; "readme"] = (LaunchError e, w') ->
        run_script w = (Raise e, State w' [])
        /\ exit_status (fst (run_script w)) = 1).
Proof.
  split.
  - intros message stderr H.
    assert (Hrun : run_script w
                   = (Ok tt,
                      State w' ["An error occurred while running 'cargo readme': " ++ message;
                                "Error output: " ++ stderr])).
    { unfold run_script, main, mbind.
      rewrite (run_cargo_readme_failed None (State w []) message stderr w' H).
      reflexivity. }
    rewrite Hrun. split; reflexivity.
  - intros e H.
    assert (Hrun : run_script w = (Raise e, State w' [])).
    { unfold run_script, main, mbind.
      rewrite (run_cargo_readme_not_launched None (State w []) e w' H).
      reflexivity. }
    rewrite Hrun. split; reflexivity.
Qed.

Lemma main_stops_when_tool_fails_witness :
  run_script Demo.tool_fails
  = (Ok tt,
     State Demo.tool_fails
       ["An error occurred while running 'cargo readme': "
        ++ "Command '['cargo', 'readme']' returned non-zero exit status 1.";
        "Error output: " ++ "error: could not find `Cargo.toml`"])
  /\ exit_status (fst (run_script Demo.tool_fails)) = 0.
Proof.
  apply (proj1 (main_stops_when_tool_fails Demo.tool_fails Demo.tool_fails)).
  reflexivity.
Defined.

(** C2, as the specification words it, fails: with a tool that exits with
    status 1 the run ends with status 0. *)
Lemma tool_failure_is_not_fatal : ~ fatal_on_tool_failure Demo.tool_fails.
Proof.
  intros Hfatal. destruct (Hfatal I) as [Hstatus _].
  apply Hstatus. reflexivity.
Qed.

(** A tool that succeeds and prints nothing is not fatal either: the guard
    of line 106 is [is None], the run goes on through every step with an
    empty base document and ends with status 0. *)
Lemma silent_tool_is_not_fatal :
  ~ fatal_on_tool_failure Demo.tool_silent
  /\ fst (run_script Demo.tool_silent) = Ok tt
  /\ Demo.lookup "README.md" (Demo.files (world (snd (run_script Demo.tool_silent))))
     = Some ""
  /\ console (snd (run_script Demo.tool_silent))
     = ["README.md and TEST_STATUS.md have been generated successfully."].
Proof.
  split; [|vm_compute; repeat split; reflexivity].
  intros Hfatal. destruct (Hfatal I) as [Hstatus _].
  apply Hstatus. reflexivity.
Qed.

(** C3. When step 1 returned the base document and the coverage report is
    absent, [main] writes the base document to [README.md], prints one
    diagnostic and returns: that write is the only one (none of
    [TEST_STATUS.md], no second one of [README.md]), no exception is raised
    and the exit status is 0. *)
Theorem main_without_report {W : Type} {host : Host W} (w w1 : W) (base : string) :
  subprocess_run w ["cargo"; "readme"] = (Completed base, w1) ->
  path_exists (write_text w1 "README.md" base) html_file = false ->
  run_script w
  = (Ok tt,
     State (write_text w1 "README.md" base)
       ["HTML report file not found: .artifacts/coverage/html/index.html"])
  /\ exit_status (fst (run_script w)) = 0.
Proof.
  intros Htool Habsent.
  assert (Hrun : run_script w
                 = (Ok tt,
                    State (write_text w1 "README.md" base)
                      ["HTML report file not found: .artifacts/coverage/html/index.html"])).
  { unfold run_script, main, mbind.
    rewrite (run_cargo_readme_completed None (State w []) base w1 Htool).
    cbn. rewrite Habsent. reflexivity. }
  rewrite Hrun. split; reflexivity.
Qed.

Lemma main_without_report_witness :
  run_script Demo.without_report
  = (Ok tt,
     State (write_text Demo.without_report "README.md"
              ("# Title" ++ String LF (test_status_marker ++ String LF "")))
       ["HTML report file not found: .artifacts/coverage/html/index.html"])
  /\ exit_status (fst (run_script Demo.without_report)) = 0.
Proof.
  apply (main_without_report Demo.without_report Demo.without_report); reflexivity.
Defined.

(** ** The report renderer *)

Section ReportFacts.

(** One turn of the loop appends [row_markdown row]. *)
Lemma report_rows_cons (row : node) (rows : list node) (acc : string) :
  report_rows (row :: rows) acc
  = (r <- row_markdown row ;; report_rows rows (acc ++ r))%py.
Proof.
  cbn [report_rows]. unfold row_markdown, valid_row, record_of_row.
  destruct (Nat.leb 6 (List.length (find_all "td" row)));
    [|cbn [bind]; now rewrite append_empty_r].
  destruct (find "th" row) as [th|]; cbn [bind]; [|reflexivity].
  destruct (item 1 (find_all "td" row)) as [cell1|]; cbn [bind]; [|reflexivity].
  destruct (float_of_str _) as [cov|]; cbn [bind]; [|reflexivity].
  destruct (item 2 (find_all "td" row)) as [cell2|]; cbn [bind]; [|reflexivity].
  destruct (unpack_two_ints _) as [ints|]; cbn [bind]; reflexivity.
Qed.

Lemma report_rows_app (a b : list node) (acc : string) :
  report_rows (a ++ b) acc = (t <- report_rows a acc ;; report_rows b t)%py.
Proof.
  revert acc. induction a as [|row a IH]; intros acc; [reflexivity|].
  rewrite <- app_comm_cons, !report_rows_cons.
  destruct (row_markdown row) as [r|e]; cbn [bind]; [apply IH | reflexivity].
Qed.

Lemma report_rows_markdown (rows : list node) (acc : string) :
  report_rows rows acc = (body <- rows_markdown rows ;; Ok (acc ++ body))%py.
Proof.
  revert acc. induction rows as [|row rows IH]; intros acc.
  - cbn. now rewrite append_empty_r.
  - rewrite report_rows_cons. cbn [rows_markdown].
    destruct (row_markdown row) as [r|e]; cbn [bind]; [|reflexivity].
    rewrite IH. destruct (rows_markdown rows) as [rest|e]; cbn [bind];
      [now rewrite append_assoc | reflexivity].
Qed.

End ReportFacts.

(** *** Line structure of the table *)

Section LineFacts.

Lemma count_char_append (c : ascii) (a b : string) :
  count_char c (a ++ b) = (count_char c a + count_char c b)%nat.
Proof.
  induction a as [|x a IH]; [reflexivity|].
  cbn [append count_char]. rewrite IH. lia.
Qed.

Lemma count_char_cons_zero (c x : ascii) (s : string) :
  count_char c (String x s) = O -> Ascii.eqb x c = false /\ count_char c s = O.
Proof.
  cbn [count_char]. destruct (Ascii.eqb x c); [discriminate|].
  intros H. split; [reflexivity | exact H].
Qed.

(** A text without LF followed by LF is one line. *)
Lemma lines_first (a b : string) :
  count_char LF a = O -> lines (a ++ String LF b) = a :: lines b.
Proof.
  induction a as [|x a IH]; intros Hno.
  - cbn [append lines]. now rewrite Ascii.eqb_refl.
  - apply count_char_cons_zero in Hno as [Hx Ha].
    cbn [append lines]. rewrite Hx, (IH Ha). reflexivity.
Qed.

Lemma no_lf_substring (n m : nat) (s : string) :
  count_char LF s = O -> count_char LF (String.substring n m s) = O.
Proof.
  revert n m. induction s as [|x s IH]; intros n m Hno.
  - destruct n, m; reflexivity.
  - apply count_char_cons_zero in Hno as [Hx Hs].
    destruct n as [|n]; [destruct m as [|m]|]; cbn [String.substring].
    + reflexivity.
    + cbn [count_char]. rewrite Hx. now apply IH.
    + now apply IH.
Qed.

Lemma no_lf_rstrip (p : ascii -> bool) (s : string) :
  count_char LF s = O -> count_char LF (rstrip_by p s) = O.
Proof.
  induction s as [|x s IH]; intros Hno; [reflexivity|].
  apply count_char_cons_zero in Hno as [Hx Hs]. specialize (IH Hs).
  cbn [rstrip_by]. destruct (rstrip_by p s) as [|y r].
  - destruct (p x); cbn [count_char]; [reflexivity | now rewrite Hx].
  - cbn [count_char] in *. now rewrite Hx.
Qed.

Lemma no_lf_zeros (n : nat) : count_char LF (zeros n) = O.
Proof. induction n as [|n IH]; [reflexivity | exact IH]. Qed.

Lemma no_lf_uint (d : Decimal.uint) :
  count_char LF (NilEmpty.string_of_uint d) = O.
Proof. induction d; cbn; assumption || reflexivity. Qed.

Lemma no_lf_str_of_int (n : Z) : count_char LF (str_of_int n) = O.
Proof.
  unfold str_of_int, NilZero.string_of_int, NilZero.string_of_uint.
  destruct (Z.to_int n) as [d|d]; destruct d; cbn [count_char];
    try reflexivity; apply (no_lf_uint d).
Qed.

Lemma no_lf_repr_exponent (ex : Z) : count_char LF (repr_exponent ex) = O.
Proof.
  unfold repr_exponent. rewrite !count_char_append, no_lf_str_of_int.
  destruct (ex <? 0); destruct (Nat.ltb _ 2); reflexivity.
Qed.

Lemma no_lf_repr_layout (ds : string) (decpt : Z) :
  count_char LF ds = O -> count_char LF (repr_layout ds decpt) = O.
Proof.
  intros Hds. unfold repr_layout.
  destruct ((decpt <=? -4) || (16 <? decpt))%bool.
  - rewrite !count_char_append, no_lf_repr_exponent, no_lf_substring by assumption.
    destruct (Nat.ltb 1 (String.length ds)); [|reflexivity].
    rewrite count_char_append, no_lf_substring by assumption. reflexivity.
  - destruct (decpt <=? 0).
    + rewrite !count_char_append, no_lf_zeros, Hds. reflexivity.
    + destruct (decpt <? Z.of_nat (String.length ds)).
      * rewrite !count_char_append, !no_lf_substring by assumption. reflexivity.
      * rewrite !count_char_append, no_lf_zeros, Hds. reflexivity.
Qed.

Lemma no_lf_str_of_float (x : float) : count_char LF (str_of_float x) = O.
Proof.
  destruct x as [s|s| |s m e]; cbn [str_of_float]; try (destruct s; reflexivity).
  - reflexivity.
  - rewrite count_char_append. unfold repr_positive.
    destruct (shortest_from 17 m e _) as [d u].
    rewrite no_lf_repr_layout by apply no_lf_rstrip, no_lf_str_of_int.
    destruct s; reflexivity.
Qed.

Lemma no_lf_row_line (r : coverage_record) (n : Z) :
  count_char LF (file_name r) = O -> count_char LF (row_line r n) = O.
Proof.
  intros Hname. unfold row_line, bar_image.
  rewrite !count_char_append, Hname, no_lf_str_of_float, !no_lf_str_of_int.
  reflexivity.
Qed.

End LineFacts.

(** *** Integers are printed in a form that reads back *)

Section IntegerFacts.

Lemma digit_not_special (c : ascii) :
  isdigit c = true ->
  isspace_numeric c = false /\ Ascii.eqb c "_" = false
  /\ Ascii.eqb c "-" = false /\ Ascii.eqb c "+" = false.
Proof.
  destruct c as [[] [] [] [] [] [] [] []]; cbn; intros H;
    try discriminate H; repeat split; reflexivity.
Qed.

Lemma all_digits_uint (d : Decimal.uint) :
  all_digits (NilEmpty.string_of_uint d) = true.
Proof. induction d; cbn; assumption || reflexivity. Qed.

Lemma rstrip_by_digits (s : string) :
  all_digits s = true -> rstrip_by isspace_numeric s = s.
Proof.
  induction s as [|c s IH]; intros Hd; [reflexivity|].
  cbn [all_digits] in Hd. apply andb_true_iff in Hd as [Hc Hs].
  cbn [rstrip_by]. rewrite (IH Hs).
  destruct s; [|reflexivity].
  now rewrite (proj1 (digit_not_special c Hc)).
Qed.

Lemma strip_by_digits (s : string) :
  all_digits s = true -> strip_by isspace_numeric s = s.
Proof.
  intros Hd. unfold strip_by.
  assert (Hl : lstrip_by isspace_numeric s = s).
  { destruct s as [|c s]; [reflexivity|].
    cbn [all_digits] in Hd. apply andb_true_iff in Hd as [Hc _].
    cbn [lstrip_by]. now rewrite (proj1 (digit_not_special c Hc)). }
  rewrite Hl. now apply rstrip_by_digits.
Qed.

Lemma drop_underscores_digits (prev : ascii) (s : string) :
  all_digits s = true -> Ascii.eqb prev "_" = false ->
  drop_underscores prev s = Some s.
Proof.
  revert prev. induction s as [|c s IH]; intros prev Hd Hprev.
  - cbn. now rewrite Hprev.
  - cbn [all_digits] in Hd. apply andb_true_iff in Hd as [Hc Hs].
    destruct (digit_not_special c Hc) as (_ & Hu & _).
    cbn [drop_underscores]. rewrite Hu, Hprev. cbn [andb].
    now rewrite (IH c Hs Hu).
Qed.

Lemma digits_value_uint (d : Decimal.uint) :
  d <> Decimal.Nil ->
  digits_value (NilEmpty.string_of_uint d) = Some (Z.of_uint d).
Proof.
  intros Hd. unfold digits_value.
  rewrite (all_digits_uint d), NilEmpty.usu.
  destruct d; try reflexivity. contradiction.
Qed.

Lemma length_string_of_uint (d : Decimal.uint) :
  String.length (NilEmpty.string_of_uint d) = Decimal.nb_digits d.
Proof. induction d; cbn; congruence. Qed.

Lemma nb_digits_uint_of_string (s : string) :
  forall u, NilEmpty.uint_of_string s = Some u ->
            Decimal.nb_digits u = String.length s.
Proof.
  induction s as [|c s IH]; intros u Hu.
  - cbn in Hu. now injection Hu as <-.
  - cbn [NilEmpty.uint_of_string] in Hu.
    destruct (NilEmpty.uint_of_string s) as [v|]; cbn in Hu;
      [|destruct (uint_of_char c None); discriminate].
    specialize (IH v eq_refl). unfold uint_of_char in Hu.
    destruct c as [[] [] [] [] [] [] [] []]; cbn in Hu; try discriminate Hu;
      injection Hu as <-; cbn; now rewrite IH.
Qed.

(** Reading a digit string without sign. *)
Lemma int_of_digits (d : Decimal.uint) :
  d <> Decimal.Nil ->
  Z.of_nat (Decimal.nb_digits d) <= max_str_digits ->
  int_of_str (NilEmpty.string_of_uint d) = Ok (Z.of_uint d).
Proof.
  intros Hd Hlen. unfold int_of_str.
  rewrite (strip_by_digits _ (all_digits_uint d)).
  assert (Hsign : split_sign (NilEmpty.string_of_uint d)
                  = (false, NilEmpty.string_of_uint d)).
  { destruct d; reflexivity. }
  rewrite Hsign, (drop_underscores_digits "000"%char _ (all_digits_uint d) eq_refl).
  rewrite (digits_value_uint d Hd), length_string_of_uint.
  now rewrite (proj2 (Z.ltb_ge _ _) Hlen).
Qed.

Lemma int_of_minus_digits (d : Decimal.uint) :
  d <> Decimal.Nil ->
  Z.of_nat (Decimal.nb_digits d) <= max_str_digits ->
  int_of_str (String "-" (NilEmpty.string_of_uint d)) = Ok (- Z.of_uint d).
Proof.
  intros Hd Hlen. unfold int_of_str.
  assert (Hstrip : strip_by isspace_numeric (String "-" (NilEmpty.string_of_uint d))
                   = String "-" (NilEmpty.string_of_uint d)).
  { unfold strip_by. cbn [lstrip_by].
    change (isspace_numeric "-") with false. cbv iota. cbn [rstrip_by].
    rewrite (rstrip_by_digits _ (all_digits_uint d)).
    destruct d; [contradiction | reflexivity..]. }
  rewrite Hstrip. cbn [split_sign].
  rewrite (drop_underscores_digits "000"%char _ (all_digits_uint d) eq_refl).
  rewrite (digits_value_uint d Hd), length_string_of_uint.
  now rewrite (proj2 (Z.ltb_ge _ _) Hlen).
Qed.

(** [int(str(n)) == n] for an [n] within the limit. *)
Lemma int_of_str_of_int (n : Z) :
  Z.of_nat (int_digits n) <= max_str_digits ->
  int_of_str (str_of_int n) = Ok n.
Proof.
  destruct n as [|p|p]; intros Hlen; [reflexivity| |].
  - unfold str_of_int. cbn [Z.to_int NilZero.string_of_int].
    pose proof (DecimalPos.Unsigned.to_uint_nonnil p) as Hnil.
    assert (Hs : NilZero.string_of_uint (Pos.to_uint p)
                 = NilEmpty.string_of_uint (Pos.to_uint p)).
    { unfold NilZero.string_of_uint. destruct (Pos.to_uint p); easy. }
    rewrite Hs, (int_of_digits _ Hnil Hlen). unfold Z.of_uint.
    now rewrite DecimalPos.Unsigned.of_to.
  - unfold str_of_int. cbn [Z.to_int NilZero.string_of_int].
    pose proof (DecimalPos.Unsigned.to_uint_nonnil p) as Hnil.
    assert (Hs : NilZero.string_of_uint (Pos.to_uint p)
                 = NilEmpty.string_of_uint (Pos.to_uint p)).
    { unfold NilZero.string_of_uint. destruct (Pos.to_uint p); easy. }
    rewrite Hs, (int_of_minus_digits _ Hnil Hlen). unfold Z.of_uint.
    now rewrite DecimalPos.Unsigned.of_to.
Qed.

(** What [int()] has read is within the limit. *)
Lemma int_of_str_digits (s : string) (n : Z) :
  int_of_str s = Ok n -> Z.of_nat (int_digits n) <= max_str_digits.
Proof.
  unfold int_of_str. destruct (split_sign _) as [neg body].
  destruct (drop_underscores _ body) as [ds|]; [|discriminate].
  unfold digits_value. destruct ds as [|c ds]; [discriminate|].
  destruct (all_digits (String c ds)); [|discriminate].
  destruct (NilEmpty.uint_of_string (String c ds)) as [u|] eqn:Hu; [|discriminate].
  cbn [option_map].
  destruct (max_str_digits <? _) eqn:Hlen; [discriminate|].
  apply Z.ltb_ge in Hlen. intros [= <-].
  assert (Hnil : u <> Decimal.Nil).
  { intros ->. apply nb_digits_uint_of_string in Hu. discriminate Hu. }
  assert (Habs : Z.abs_N (if neg then - Z.of_uint u else Z.of_uint u)
                 = N.of_uint u).
  { unfold Z.of_uint, N.of_uint.
    destruct neg; [rewrite Zabs2N.inj_opp|]; apply Zabs2N.id. }
  unfold int_digits. rewrite Habs, DecimalN.Unsigned.to_of.
  pose proof (DecimalFacts.nb_digits_unorm u Hnil) as Hle.
  rewrite (nb_digits_uint_of_string _ u Hu) in Hle. lia.
Qed.

(** [int(str(int(s))) == int(s)]: what was read from a cell prints as a
    literal that reads back as the same integer. *)
Lemma int_of_str_again (s : string) (n : Z) :
  int_of_str s = Ok n -> int_of_str (str_of_int n) = Ok n.
Proof. intros Hn. apply int_of_str_of_int. exact (int_of_str_digits s n Hn). Qed.

(** A run of digits beyond the limit is refused. *)
Lemma int_of_str_limit (s : string) :
  all_digits s = true ->
  max_str_digits < Z.of_nat (String.length s) ->
  int_of_str s = Raise ValueError.
Proof.
  intros Hd Hlen. unfold int_of_str.
  rewrite (strip_by_digits _ Hd).
  assert (Hsign : split_sign s = (false, s)).
  { destruct s as [|c s]; [reflexivity|].
    cbn [all_digits] in Hd. apply andb_true_iff in Hd as [Hc _].
    destruct (digit_not_special c Hc) as (_ & _ & Hm & Hp).
    unfold split_sign.
    destruct (ascii_dec c "-") as [->|Hne1]; [discriminate Hm|].
    destruct (ascii_dec c "+") as [->|Hne2]; [discriminate Hp|].
    destruct c as [[] [] [] [] [] [] [] []]; try reflexivity; congruence. }
  rewrite Hsign, (drop_underscores_digits "000"%char _ Hd eq_refl).
  destruct (digits_value s); [|reflexivity].
  now rewrite (proj2 (Z.ltb_lt _ _) Hlen).
Qed.

End IntegerFacts.

(** *** The table of a report *)

Section TableFacts.

Lemma generate_row_line (name : string) (cov : float) (c t n : Z) :
  round cov = Ok n ->
  generate_row name cov c t
  = Ok (row_line (Coverage name cov c t) n ++ String LF "").
Proof.
  intros Hround. unfold generate_row, generate_bar, row_line, bar_image.
  rewrite Hround. cbn [bind file_name line_coverage lines_covered lines_total].
  f_equal. repeat rewrite append_assoc. reflexivity.
Qed.

Lemma rows_markdown_filter (rows : list node) :
  rows_markdown rows = rows_markdown (filter valid_row rows).
Proof.
  induction rows as [|row rows IH]; [reflexivity|].
  cbn [rows_markdown filter]. destruct (valid_row row) eqn:Hvalid.
  - cbn [rows_markdown]. now rewrite IH.
  - unfold row_markdown. rewrite Hvalid. cbn [bind]. rewrite IH.
    now destruct (rows_markdown (filter valid_row rows)).
Qed.

Lemma rows_markdown_records (data : list node) (recs : list (coverage_record * Z)) :
  Forall (fun row => valid_row row = true) data ->
  Forall2 renders_as data recs ->
  rows_markdown data = Ok (table_body recs).
Proof.
  intros Hvalid Hrecs. induction Hrecs as [|row [r n] data recs Hrow _ IH];
    [reflexivity|].
  inversion Hvalid as [|? ? Hv Hvalid']; subst.
  destruct Hrow as (Hrec & Hround & _). cbn [fst snd] in *.
  cbn [rows_markdown]. unfold row_markdown. rewrite Hv, Hrec. cbn [bind].
  destruct r as [name cov c t]. cbn [file_name line_coverage lines_covered lines_total] in *.
  rewrite (generate_row_line name cov c t n Hround). cbn [bind].
  rewrite (IH Hvalid'). cbn [bind table_body fold_right fst snd].
  now rewrite append_assoc.
Qed.

Lemma lines_table_body (recs : list (coverage_record * Z)) :
  Forall (fun rn => count_char LF (file_name (fst rn)) = O) recs ->
  lines (table_body recs) = map (fun rn => row_line (fst rn) (snd rn)) recs.
Proof.
  induction 1 as [|rn recs Hname _ IH]; [reflexivity|].
  cbn [table_body fold_right map].
  rewrite lines_first by now apply no_lf_row_line.
  f_equal. exact IH.
Qed.

Lemma lines_header (body : string) :
  lines (generate_header ++ body) = header_line :: separator_line :: lines body.
Proof.
  change (generate_header ++ body)
    with (header_line ++ String LF (separator_line ++ String LF body)).
  now rewrite !lines_first by reflexivity.
Qed.

(** The integers of a record were read by [int()]. *)
Lemma record_of_row_ints (row : node) (r : coverage_record) :
  record_of_row row = Ok r ->
  exists a b, int_of_str a = Ok (lines_covered r)
              /\ int_of_str b = Ok (lines_total r).
Proof.
  unfold record_of_row.
  destruct (find "th" row) as [th|]; cbn [bind]; [|discriminate].
  destruct (item 1 (find_all "td" row)) as [cell1|]; cbn [bind]; [|discriminate].
  destruct (float_of_str _) as [cov|]; cbn [bind]; [|discriminate].
  destruct (item 2 (find_all "td" row)) as [cell2|]; cbn [bind]; [|discriminate].
  destruct (split "/" _) as [|a [|b [|c more]]]; cbn [unpack_two_ints bind].
  - discriminate.
  - destruct (int_of_str a); cbn [bind]; discriminate.
  - destruct (int_of_str a) as [x|] eqn:Ha; cbn [bind]; [|discriminate].
    destruct (int_of_str b) as [y|] eqn:Hb; cbn [bind]; [|discriminate].
    intros [= <-]. cbn [lines_covered lines_total fst snd]. eauto.
  - destruct (int_of_str a); cbn [bind]; [|discriminate].
    destruct (int_of_str b); cbn [bind]; [|discriminate].
    destruct (int_of_str c); cbn [bind]; discriminate.
Qed.

End TableFacts.

(** C1, as the code has it.  The header is two lines (the column names and
    the separator), so a report whose rows behind the first include N valid
    ones gives a table of N + 2 lines: whenever each valid row yields a
    record (its cells parse) with a finite coverage and a file name free of
    line breaks, the table is returned and its lines are the two header
    lines followed by one line per valid row, in order, holding the trimmed
    file name, the bar with the rounded coverage, and the covered and total
    integers in decimal, which read back as the integers read from the
    cell. *)
Theorem report_lines (soup : node) (recs : list coverage_record) :
  Forall2 (fun row r => record_of_row row = Ok r) (data_rows soup) recs ->
  Forall (fun r => is_finite (line_coverage r) = true
                   /\ count_char LF (file_name r) = O) recs ->
  exists (table : string) (bars : list Z),
    report_of_soup soup = Ok table
    /\ Forall2 (fun r n => round (line_coverage r) = Ok n) recs bars
    /\ lines table
       = header_line :: separator_line
         :: map (fun rn => row_line (fst rn) (snd rn)) (combine recs bars)
    /\ List.length (lines table) = (List.length (data_rows soup) + 2)%nat
    /\ Forall (fun r =>
                 int_of_str (str_of_int (lines_covered r)) = Ok (lines_covered r)
                 /\ int_of_str (str_of_int (lines_total r)) = Ok (lines_total r))
         recs.
Proof.
  intros Hrecs Hfine.
  set (bar := fun r => round_half_even (float_num (line_coverage r))
                                       (float_den (line_coverage r))).
  assert (Hbars : Forall2 (fun r n => round (line_coverage r) = Ok n)
                    recs (map bar recs)).
  { clear Hrecs. induction Hfine as [|r recs [Hfin _] _ IH]; cbn [map];
      constructor; [now apply round_finite | exact IH]. }
  assert (Hrender : Forall2 renders_as (data_rows soup)
                      (combine recs (map bar recs))).
  { clear Hbars. revert Hfine.
    induction Hrecs as [|row r data recs Hrow _ IH]; intros Hfine;
      cbn [map combine]; constructor.
    - inversion Hfine as [|? ? [Hfin Hname] _]; subst.
      repeat split; [exact Hrow | now apply round_finite | exact Hname].
    - apply IH. now inversion Hfine. }
  exists (generate_header ++ table_body (combine recs (map bar recs))),
         (map bar recs).
  assert (Hlines : lines (generate_header
                          ++ table_body (combine recs (map bar recs)))
                   = header_line :: separator_line
                     :: map (fun rn => row_line (fst rn) (snd rn))
                          (combine recs (map bar recs))).
  { rewrite lines_header, lines_table_body; [reflexivity|].
    clear - Hrender. induction Hrender as [|row rn data recs' Hrow _ IH];
      constructor; [apply Hrow | exact IH]. }
  split; [|split; [exact Hbars|split; [exact Hlines|split]]].
  - unfold report_of_soup. rewrite report_rows_markdown, rows_markdown_filter.
    fold (data_rows soup).
    rewrite (rows_markdown_records (data_rows soup) (combine recs (map bar recs)));
      [reflexivity| |exact Hrender].
    apply Forall_forall. intros row Hin.
    now apply filter_In in Hin.
  - rewrite Hlines. cbn [List.length]. rewrite length_map.
    rewrite (Forall2_length Hrender). lia.
  - clear - Hrecs. induction Hrecs as [|row r data recs Hrow _ IH];
      constructor; [|exact IH].
    destruct (record_of_row_ints row r Hrow) as (a & b & Ha & Hb).
    split; eapply int_of_str_again; eassumption.
Qed.

Lemma report_lines_witness :
  exists (table : string) (bars : list Z),
    report_of_soup Demo.report_soup = Ok table
    /\ Forall2 (fun r n => round (line_coverage r) = Ok n)
         [Coverage "lib.rs" (S754_finite false 5629499534213120 (-46)) 8 10] bars
    /\ lines table
       = header_line :: separator_line
         :: map (fun rn => row_line (fst rn) (snd rn))
              (combine [Coverage "lib.rs" (S754_finite false 5629499534213120 (-46)) 8 10]
                       bars)
    /\ List.length (lines table) = (List.length (data_rows Demo.report_soup) + 2)%nat
    /\ Forall (fun r =>
                 int_of_str (str_of_int (lines_covered r)) = Ok (lines_covered r)
                 /\ int_of_str (str_of_int (lines_total r)) = Ok (lines_total r))
         [Coverage "lib.rs" (S754_finite false 5629499534213120 (-46)) 8 10].
Proof.
  apply (report_lines Demo.report_soup).
  - change (data_rows Demo.report_soup) with [Demo.lib_row].
    constructor; [vm_compute; reflexivity | constructor].
  - constructor; [split; vm_compute; reflexivity | constructor].
Defined.

(** C1, as the specification words it, fails: the report with the one valid
    row of [lib.rs] gives three lines, not two. *)
Lemma one_row_gives_three_lines : ~ n_plus_one_lines Demo.report_soup.
Proof.
  intros Hclaim.
  assert (Hrun : exists table,
             report_of_soup Demo.report_soup = Ok table
             /\ List.length (lines table) = 3%nat).
  { eexists. split; [lazy; reflexivity | reflexivity]. }
  destruct Hrun as (table & Htable & Hthree).
  specialize (Hclaim table Htable). rewrite Hthree in Hclaim.
  discriminate Hclaim.
Qed.

(** *** Rows and tables *)

Section RowFacts.

(** The loop only appends. *)
Lemma report_rows_prefix (rows : list node) (acc table : string) :
  report_rows rows acc = Ok table -> exists b, table = acc ++ b.
Proof.
  rewrite report_rows_markdown.
  destruct (rows_markdown rows) as [body|e]; cbn [bind]; [|discriminate].
  intros [= <-]. now exists body.
Qed.

(** What a valid row appends is the line of its record. *)
Lemma row_markdown_valid (row : node) (line : string) :
  valid_row row = true ->
  row_markdown row = Ok line ->
  exists r n,
    record_of_row row = Ok r
    /\ round (line_coverage r) = Ok n
    /\ line = row_line r n ++ String LF "".
Proof.
  intros Hvalid. unfold row_markdown. rewrite Hvalid.
  destruct (record_of_row row) as [[name cov c t]|e]; cbn [bind]; [|discriminate].
  cbn [file_name line_coverage lines_covered lines_total].
  destruct (round cov) as [n|e] eqn:Hround.
  - rewrite (generate_row_line name cov c t n Hround). intros [= <-].
    exists (Coverage name cov c t), n. repeat split. exact Hround.
  - unfold generate_row, generate_bar. rewrite Hround. discriminate.
Qed.

Lemma row_markdown_record (row : node) (r : coverage_record) (n : Z) :
  valid_row row = true ->
  record_of_row row = Ok r ->
  round (line_coverage r) = Ok n ->
  row_markdown row = Ok (row_line r n ++ String LF "").
Proof.
  intros Hvalid Hrec Hround. unfold row_markdown. rewrite Hvalid, Hrec.
  cbn [bind]. destruct r as [name cov c t].
  now apply generate_row_line.
Qed.

(** The nodes [descendants] lists are the nodes below. *)
Lemma descendants_below (k : nat) :
  forall root : node,
    (List.length (descendants root) < k)%nat ->
    forall n, In n (descendants root) <-> below n root.
Proof.
  induction k as [|k IH]; [intros root Hk; inversion Hk|].
  intros [s|s|name [|c cs]] Hlen n.
  - split; [intros [] | inversion 1].
  - split; [intros [] | inversion 1].
  - split; [intros [] | intros Hb; inversion Hb; subst; contradiction].
  - change (descendants (Tag name (c :: cs)))
      with (c :: descendants c ++ descendants (Tag name cs))%list in *.
    cbn [List.length] in Hlen. rewrite length_app in Hlen.
    assert (Hc : forall m, In m (descendants c) <-> below m c)
      by (apply IH; lia).
    assert (Hcs : forall m, In m (descendants (Tag name cs))
                            <-> below m (Tag name cs))
      by (apply IH; lia).
    split.
    + intros [<-|Hin]; [apply below_child; now left|].
      apply in_app_or in Hin as [Hin|Hin].
      * apply (below_deeper _ name (c :: cs) c); [now left | now apply Hc].
      * apply Hcs in Hin. inversion Hin as [? ? Hn|? ? c' Hc' Hn]; subst.
        -- apply below_child. now right.
        -- apply (below_deeper _ name (c :: cs) c'); [now right | exact Hn].
    + intros Hb. inversion Hb as [? ? Hn|? ? c' Hc' Hn]; subst.
      * destruct Hn as [<-|Hn]; [now left|].
        right. apply in_or_app. right. apply Hcs. now apply below_child.
      * right. apply in_or_app. destruct Hc' as [<-|Hc'].
        -- left. now apply Hc.
        -- right. apply Hcs. now apply (below_deeper _ name cs c').
Qed.

(** [find_all] gives the tags of that name below, wherever they stand. *)
Lemma find_all_below (name : string) (root n : node) :
  In n (find_all name root) <-> below n root /\ is_tag name n = true.
Proof.
  unfold find_all. rewrite filter_In.
  now rewrite (descendants_below (S (List.length (descendants root))) root
                 (Nat.lt_succ_diag_r _) n).
Qed.

(** The turn of the loop for the row that stands behind [pre]. *)
Lemma report_rows_at (pre post : list node) (row : node) (acc table : string) :
  report_rows (pre ++ row :: post) acc = Ok table ->
  exists a line,
    report_rows pre acc = Ok a
    /\ row_markdown row = Ok line
    /\ report_rows post (a ++ line) = Ok table.
Proof.
  rewrite report_rows_app.
  destruct (report_rows pre acc) as [a|e]; cbn [bind]; [|discriminate].
  rewrite report_rows_cons.
  destruct (row_markdown row) as [line|e]; cbn [bind]; [|discriminate].
  intros Hpost. now exists a, line.
Qed.

End RowFacts.

(** C6.  A row that has fewer than six [td] cells adds nothing to the table
    and raises nothing, whatever it holds, and the loop goes on behind it:
    with [a] the text the rows in front of it have given, the report is what
    the rows behind it make of [a].  When a valid row follows, its line
    stands in the table right behind [a]; when nothing follows, the table is
    [a].  (A short row that is the first row of the document is skipped like
    any first row.) *)
Theorem short_row_is_skipped
    (soup : node) (pre post : list node) (row : node) (a : string) :
  find_all "tr" soup = (pre ++ row :: post)%list ->
  (List.length (find_all "td" row) < 6)%nat ->
  report_rows (tl pre) generate_header = Ok a ->
  report_of_soup soup = report_rows post a
  /\ (post = [] -> report_of_soup soup = Ok a)
  /\ (forall next rest r n,
        post = next :: rest ->
        valid_row next = true ->
        record_of_row next = Ok r ->
        round (line_coverage r) = Ok n ->
        report_of_soup soup
        = report_rows rest (a ++ row_line r n ++ String LF "")
        /\ forall table,
             report_of_soup soup = Ok table ->
             exists b, table = a ++ row_line r n ++ String LF b).
Proof.
  intros Hrows Hshort Hpre.
  assert (Hinvalid : valid_row row = false).
  { unfold valid_row. apply Nat.leb_gt. exact Hshort. }
  assert (Hskip : report_of_soup soup = report_rows post a).
  { unfold report_of_soup. rewrite Hrows.
    destruct pre as [|first pre]; cbn [tl app] in *.
    - now injection Hpre as <-.
    - rewrite report_rows_app, Hpre. cbn [bind].
      rewrite report_rows_cons. unfold row_markdown. rewrite Hinvalid.
      cbn [bind]. now rewrite append_empty_r. }
  split; [exact Hskip|split].
  - intros ->. exact Hskip.
  - intros next rest r n -> Hvalid Hrec Hround.
    assert (Hnext : report_of_soup soup
                    = report_rows rest (a ++ row_line r n ++ String LF "")).
    { rewrite Hskip, report_rows_cons.
      now rewrite (row_markdown_record next r n Hvalid Hrec Hround). }
    split; [exact Hnext|].
    intros table Htable. rewrite Hnext in Htable.
    apply report_rows_prefix in Htable as [b ->].
    exists b. now rewrite !append_assoc.
Qed.

Lemma short_row_is_skipped_witness :
  report_of_soup
    (soup [Tag "table" [Demo.header_row; Demo.short_row; Demo.lib_row]])
  = Ok (generate_header
        ++ row_line (Coverage "lib.rs" (S754_finite false 5629499534213120 (-46)) 8 10) 80
        ++ String LF "").
Proof.
  exact (proj1
           (proj2 (proj2
              (short_row_is_skipped
                 (soup [Tag "table" [Demo.header_row; Demo.short_row; Demo.lib_row]])
                 [Demo.header_row] [Demo.lib_row] Demo.short_row generate_header
                 ltac:(vm_compute; reflexivity)
                 ltac:(vm_compute; lia)
                 ltac:(vm_compute; reflexivity)))
              Demo.lib_row []
              (Coverage "lib.rs" (S754_finite false 5629499534213120 (-46)) 8 10) 80
              eq_refl
              ltac:(vm_compute; reflexivity)
              ltac:(vm_compute; reflexivity)
              ltac:(vm_compute; reflexivity))).
Defined.

(** C4, as the code has it.  The rows are all the [tr] elements below the
    document, at any depth and in document order, whatever table they stand
    in, and only the first of them is skipped.  In a report that is
    returned, every other one with six cells or more has its line in the
    table: behind the text [a] that the rows between the first and itself
    have given, and in front of what the rows behind it add. *)
Theorem rows_come_from_every_table (soup : node) (table : string) :
  report_of_soup soup = Ok table ->
  (forall row,
     In row (find_all "tr" soup) <-> below row soup /\ is_tag "tr" row = true)
  /\ (forall pre row post,
        find_all "tr" soup = (pre ++ row :: post)%list ->
        pre <> [] ->
        valid_row row = true ->
        exists r n a,
          record_of_row row = Ok r
          /\ round (line_coverage r) = Ok n
          /\ report_rows (tl pre) generate_header = Ok a
          /\ report_rows post (a ++ row_line r n ++ String LF "") = Ok table
          /\ exists b, table = a ++ row_line r n ++ String LF b)
  /\ (forall row,
        below row soup ->
        is_tag "tr" row = true ->
        valid_row row = true ->
        hd_error (find_all "tr" soup) <> Some row ->
        exists r n a b,
          record_of_row row = Ok r
          /\ round (line_coverage r) = Ok n
          /\ table = a ++ row_line r n ++ String LF b).
Proof.
  intros Htable.
  assert (Hat : forall pre row post,
             find_all "tr" soup = (pre ++ row :: post)%list ->
             pre <> [] ->
             valid_row row = true ->
             exists r n a,
               record_of_row row = Ok r
               /\ round (line_coverage r) = Ok n
               /\ report_rows (tl pre) generate_header = Ok a
               /\ report_rows post (a ++ row_line r n ++ String LF "") = Ok table
               /\ exists b, table = a ++ row_line r n ++ String LF b).
  { intros pre row post Hrows Hpre Hvalid.
    unfold report_of_soup in Htable. rewrite Hrows in Htable.
    destruct pre as [|first pre]; [contradiction|]. cbn [tl app] in *.
    apply report_rows_at in Htable as (a & line & Ha & Hline & Hpost).
    apply (row_markdown_valid row line Hvalid) in Hline
      as (r & n & Hrec & Hround & ->).
    exists r, n, a. repeat split; try assumption.
    apply report_rows_prefix in Hpost as [b ->].
    exists b. now rewrite !append_assoc. }
  split; [intros row; apply find_all_below|split; [exact Hat|]].
  intros row Hbelow Htag Hvalid Hfirst.
  assert (Hin : In row (find_all "tr" soup)) by now apply find_all_below.
  apply in_split in Hin as (pre & post & Hrows).
  destruct pre as [|first pre].
  - rewrite Hrows in Hfirst. now contradiction Hfirst.
  - destruct (Hat (first :: pre) row post Hrows ltac:(discriminate) Hvalid)
      as (r & n & a & Hrec & Hround & _ & _ & b & Hb).
    now exists r, n, a, b.
Qed.

Lemma rows_come_from_every_table_witness :
  exists r n a b,
    record_of_row Demo.main_row = Ok r
    /\ round (line_coverage r) = Ok n
    /\ Demo.nested_report = a ++ row_line r n ++ String LF b.
Proof.
  apply (proj2 (proj2 (rows_come_from_every_table
                         Demo.nested_tables Demo.nested_report
                         ltac:(vm_compute; reflexivity)))
           Demo.main_row).
  - apply (below_deeper _ _ _ (Tag "html" [Tag "body" [Demo.first_table; Tag "div" [Demo.second_table]]]));
      [now left|].
    apply (below_deeper _ _ _ (Tag "body" [Demo.first_table; Tag "div" [Demo.second_table]]));
      [now left|].
    apply (below_deeper _ _ _ (Tag "div" [Demo.second_table])); [right; now left|].
    apply (below_deeper _ _ _ Demo.second_table); [now left|].
    apply below_child. right. now left.
  - vm_compute; reflexivity.
  - vm_compute; reflexivity.
  - vm_compute. discriminate.
Defined.

(** C4, as the specification words it, fails: the row of [main.rs] in the
    second table is in the report. *)
Lemma second_table_contributes :
  ~ first_table_only Demo.first_table [Demo.second_table].
Proof.
  unfold first_table_only. intros Heq.
  vm_compute in Heq. discriminate Heq.
Qed.

(** ** The placeholder resolver *)

Section RegexFacts.

Lemma prefix_split (lit s : string) :
  String.prefix lit s = true -> s = lit ++ Re.drop (String.length lit) s.
Proof.
  revert s. induction lit as [|a lit IH]; intros s Hp; [reflexivity|].
  destruct s as [|b s]; [discriminate Hp|].
  cbn [String.prefix] in Hp. destruct (ascii_dec a b) as [->|]; [|discriminate Hp].
  cbn [String.length Re.drop append]. now rewrite <- (IH s Hp).
Qed.

Lemma substring_front (w s : string) :
  String.substring 0 (String.length w) (w ++ s) = w.
Proof.
  induction w as [|a w IH]; cbn [String.length append String.substring].
  - now destruct s.
  - now rewrite IH.
Qed.

Lemma consumed_app (w s : string) : Re.consumed (w ++ s) s = w.
Proof.
  unfold Re.consumed. rewrite length_append.
  replace (String.length w + String.length s - String.length s)%nat
    with (String.length w) by lia.
  apply substring_front.
Qed.

(** Whatever the matcher finds is a match in the sense of [Re.matches]. *)
Lemma run_sound {R : Type} (r : Re.regex) :
  forall (s : string) (caps : Re.captures)
         (k : string -> Re.captures -> option R) (res : R),
    Re.run r s caps k = Some res ->
    exists w rest caps',
      s = w ++ rest /\ Re.matches r w caps caps' /\ k rest caps' = Some res.
Proof.
  induction r as [lit|c|r1 IH1 r2 IH2|r1 IH1 r2 IH2|r1 IH1|i r1 IH1];
    intros s caps k res Hrun; cbn [Re.run] in Hrun.
  - destruct (String.prefix lit s) eqn:Hp; [|discriminate Hrun].
    exists lit, (Re.drop (String.length lit) s), caps.
    split; [now apply prefix_split|]. split; [constructor | exact Hrun].
  - destruct s as [|d s]; [discriminate Hrun|].
    destruct (Ascii.eqb d c) eqn:Hd; [discriminate Hrun|].
    exists (String d ""), s, caps. split; [reflexivity|].
    split; [now constructor | exact Hrun].
  - apply IH1 in Hrun as (w1 & s1 & c1 & -> & Hm1 & Hrun).
    apply IH2 in Hrun as (w2 & s2 & c2 & -> & Hm2 & Hk).
    exists (w1 ++ w2), s2, c2. split; [now rewrite append_assoc|].
    split; [econstructor; eassumption | exact Hk].
  - destruct (Re.run r1 s caps k) as [x|] eqn:Hleft.
    + injection Hrun as ->.
      apply IH1 in Hleft as (w & rest & c' & -> & Hm & Hk).
      exists w, rest, c'. repeat split; [now apply Re.M_AltLeft | exact Hk].
    + apply IH2 in Hrun as (w & rest & c' & -> & Hm & Hk).
      exists w, rest, c'. repeat split; [now apply Re.M_AltRight | exact Hk].
  - remember (String.length s) as fuel eqn:Hfuel. clear Hfuel.
    revert s caps Hrun. induction fuel as [|fuel IHfuel]; intros s caps Hrun.
    + apply IH1 in Hrun as (w & rest & c' & -> & Hm & Hk).
      exists w, rest, c'. repeat split; [now apply Re.M_PlusOnce | exact Hk].
    + apply IH1 in Hrun as (w & rest & c' & -> & Hm & Hk).
      destruct (Nat.ltb (String.length rest) (String.length (w ++ rest))).
      * match type of Hk with
        | match ?again with _ => _ end = _ => destruct again as [x|] eqn:Hagain
        end.
        -- injection Hk as ->.
           apply IHfuel in Hagain as (w2 & rest2 & c2 & -> & Hm2 & Hk2).
           exists (w ++ w2), rest2, c2. split; [now rewrite append_assoc|].
           split; [eapply Re.M_PlusMore; eassumption | exact Hk2].
        -- exists w, rest, c'. repeat split; [now apply Re.M_PlusOnce | exact Hk].
      * exists w, rest, c'. repeat split; [now apply Re.M_PlusOnce | exact Hk].
  - apply IH1 in Hrun as (w & rest & c' & -> & Hm & Hk).
    rewrite consumed_app in Hk.
    exists w, rest, ((i, w) :: c'). repeat split; [now constructor | exact Hk].
Qed.

(** A run of characters other than [c]: not empty, free of [c], and no
    capture is added. *)
Lemma plus_notchar_word (c : ascii) (w : string) (caps caps' : Re.captures) :
  Re.matches (Re.Plus (Re.NotChar c)) w caps caps' ->
  caps' = caps /\ w <> "" /\ count_char c w = O.
Proof.
  remember (Re.Plus (Re.NotChar c)) as r eqn:Hr. intros Hm.
  induction Hm as [| | | | |r0 w caps caps' Hone _
                   |r0 w1 w2 caps caps1 caps2 Hone _ _ IHmore|];
    try discriminate Hr; injection Hr as ->.
  - inversion Hone as [|c0 d caps0 Hd| | | | | |]; subst.
    repeat split; [discriminate | cbn; now rewrite Hd].
  - inversion Hone as [|c0 d caps0 Hd| | | | | |]; subst.
    destruct (IHmore eq_refl) as (-> & _ & Hcount).
    repeat split; [discriminate | cbn; now rewrite Hd].
Qed.

Lemma matches_str_inv (lit w : string) (caps caps' : Re.captures) :
  Re.matches (Re.Str lit) w caps caps' -> w = lit /\ caps' = caps.
Proof. intros H. inversion H; subst. auto. Qed.

Lemma matches_cat_inv (r1 r2 : Re.regex) (w : string) (caps caps' : Re.captures) :
  Re.matches (Re.Cat r1 r2) w caps caps' ->
  exists w1 w2 caps1,
    w = w1 ++ w2 /\ Re.matches r1 w1 caps caps1 /\ Re.matches r2 w2 caps1 caps'.
Proof. intros H. inversion H; subst. eauto 6. Qed.

Lemma matches_alt_inv (r1 r2 : Re.regex) (w : string) (caps caps' : Re.captures) :
  Re.matches (Re.Alt r1 r2) w caps caps' ->
  Re.matches r1 w caps caps' \/ Re.matches r2 w caps caps'.
Proof. intros H. inversion H; subst; auto. Qed.

Lemma matches_group_inv (i : nat) (r : Re.regex) (w : string)
    (caps caps' : Re.captures) :
  Re.matches (Re.Group i r) w caps caps' ->
  exists caps1, caps' = (i, w) :: caps1 /\ Re.matches r w caps caps1.
Proof. intros H. inversion H; subst. eauto. Qed.

(** The words the pattern of line 77 matches, and what it captures. *)
Lemma docs_pattern_matches (w : string) (caps : Re.captures) :
  Re.matches docs_pattern w [] caps ->
  exists label stem ext,
    w = placeholder label (stem ++ "." ++ ext)
    /\ Re.groups 3 caps = [label; stem ++ "." ++ ext; ext]
    /\ (ext = "md" \/ ext = "rs")
    /\ label <> "" /\ count_char "]" label = O
    /\ stem <> "" /\ count_char ")" stem = O.
Proof.
  unfold docs_pattern. intros Hm.
  apply matches_cat_inv in Hm as (w1 & x1 & c1 & -> & Hopen & Hm).
  apply matches_str_inv in Hopen as [-> ->].
  apply matches_cat_inv in Hm as (label & x2 & c2 & -> & Hg1 & Hm).
  apply matches_group_inv in Hg1 as (c1' & -> & Hlabel).
  apply plus_notchar_word in Hlabel as (-> & Hlabel & Hlabel').
  apply matches_cat_inv in Hm as (w3 & x3 & c3 & -> & Hmid & Hm).
  apply matches_str_inv in Hmid as [-> ->].
  apply matches_cat_inv in Hm as (path & x4 & c4 & -> & Hg2 & Hclose).
  apply matches_str_inv in Hclose as [-> ->].
  apply matches_group_inv in Hg2 as (c2' & -> & Hpath).
  apply matches_cat_inv in Hpath as (stem & x5 & c5 & -> & Hstem & Hpath).
  apply plus_notchar_word in Hstem as (-> & Hstem & Hstem').
  apply matches_cat_inv in Hpath as (dot & x6 & c6 & -> & Hdot & Hg3).
  apply matches_str_inv in Hdot as [-> ->].
  apply matches_group_inv in Hg3 as (c3' & -> & Hext).
  exists label, stem, x6.
  assert (Hcases : (x6 = "md" \/ x6 = "rs") /\ c3' = [(1%nat, label)]).
  { apply matches_alt_inv in Hext as [Hext|Hext];
      apply matches_str_inv in Hext as [-> ->]; auto. }
  destruct Hcases as [Hcases ->].
  split; [|split; [reflexivity|repeat split; assumption]].
  unfold placeholder. now rewrite !append_assoc.
Qed.

(** Every tuple of [findall] comes from a match at some place of the text. *)
Lemma findall_from_sound (r : Re.regex) (n : nat) (s : string) :
  forall (skip : nat) (m : list string),
    In m (Re.findall_from r n skip s) ->
    exists pre suf rest caps,
      s = pre ++ suf /\ Re.match_at r suf = Some (rest, caps)
      /\ m = Re.groups n caps.
Proof.
  induction s as [|c s IH]; intros skip m Hin; [contradiction|].
  cbn [Re.findall_from] in Hin. destruct skip as [|skip].
  - destruct (Re.match_at r (String c s)) as [[rest caps]|] eqn:Hmatch.
    + destruct Hin as [<-|Hin].
      * exists "", (String c s), rest, caps. auto.
      * apply IH in Hin as (pre & suf & rest' & caps' & -> & Hm & ->).
        exists (String c pre), suf, rest', caps'. auto.
    + apply IH in Hin as (pre & suf & rest' & caps' & -> & Hm & ->).
      exists (String c pre), suf, rest', caps'. auto.
  - apply IH in Hin as (pre & suf & rest' & caps' & -> & Hm & ->).
    exists (String c pre), suf, rest', caps'. auto.
Qed.

Lemma findall_three (r : Re.regex) (s : string) (m : list string) :
  In m (Re.findall r 3 s) -> exists a b c, m = [a; b; c].
Proof.
  intros Hin. apply findall_from_sound in Hin as (_ & _ & _ & caps & _ & _ & ->).
  cbn. eauto.
Qed.

Lemma contains_prefix (old s : string) :
  String.prefix old s = true -> contains old s = true.
Proof. intros Hp. destruct s; cbn [contains]; now rewrite Hp. Qed.

Lemma prefix_app (a b : string) : String.prefix a (a ++ b) = true.
Proof.
  induction a as [|x a IH]; [now destruct b|].
  cbn [append String.prefix]. destruct (ascii_dec x x); [exact IH | contradiction].
Qed.

Lemma contains_app (old pre post : string) :
  contains old (pre ++ old ++ post) = true.
Proof.
  induction pre as [|x pre IH].
  - change ("" ++ old ++ post) with (old ++ post).
    apply contains_prefix, prefix_app.
  - cbn [append contains]. rewrite IH. apply orb_true_r.
Qed.

Lemma substring_back (a b : string) :
  String.substring (String.length a) (String.length b) (a ++ b) = b.
Proof.
  induction a as [|x a IH]; [|exact IH].
  cbn [String.length append].
  rewrite <- (append_empty_r b) at 2. 
  rewrite substring_front. reflexivity.
Qed.

Lemma endswith_app (a suffix : string) : endswith suffix (a ++ suffix) = true.
Proof.
  unfold endswith. rewrite length_append.
  replace (String.length a + String.length suffix - String.length suffix)%nat
    with (String.length a) by lia.
  rewrite substring_back, String.eqb_refl.
  apply andb_true_iff. split; [apply Nat.leb_le; lia | reflexivity].
Qed.

(** A path that ends in [.md] does not end in [.rs]. *)
Lemma markdown_is_not_rust (path : string) :
  endswith ".md" path = true -> endswith ".rs" path = false.
Proof.
  unfold endswith. cbn [String.length]. intros Hmd.
  apply andb_true_iff in Hmd as [Hlen Hmd].
  apply String.eqb_eq in Hmd. rewrite Hlen, Hmd. reflexivity.
Qed.

End RegexFacts.

Section ResolverFacts.
Context {W : Type} {host : Host W}.

(** One turn of the loop for a path that does not exist. *)
Lemma resolve_match_missing (label path ext readme : string) (st : state) :
  path_exists (world st) path = false ->
  resolve_match [label; path; ext] readme st
  = (Ok readme, State (world st) (console st ++ [not_found path])%list).
Proof.
  intros Hmissing. unfold resolve_match, mbind, lift, item.
  cbn [nth_error]. rewrite Hmissing. reflexivity.
Qed.

(** One turn of the loop for a markdown file with some content. *)
Lemma resolve_match_markdown (label path ext readme content : string) (st : state) :
  path_exists (world st) path = true ->
  endswith ".md" path = true ->
  read_text (world st) path = Ok content ->
  content <> "" ->
  resolve_match [label; path; ext] readme st
  = (Ok (replace (placeholder label path) content readme),
     State (world st) (console st ++ [generating path; replacing path])%list).
Proof.
  intros Hexists Hmd Hread Hcontent.
  unfold resolve_match, mbind, lift, item. cbn [nth_error].
  rewrite Hexists, (markdown_is_not_rust path Hmd).
  unfold print, read_file, ret. cbn [world console]. rewrite Hread.
  destruct content as [|c content]; [contradiction|].
  cbn [truthy world console]. rewrite <- app_assoc. reflexivity.
Qed.

(** One turn of the loop for a markdown file that is empty. *)
Lemma resolve_match_empty (label path ext readme : string) (st : state) :
  path_exists (world st) path = true ->
  endswith ".md" path = true ->
  read_text (world st) path = Ok "" ->
  resolve_match [label; path; ext] readme st
  = (Ok readme, State (world st) (console st ++ [generating path])%list).
Proof.
  intros Hexists Hmd Hread.
  unfold resolve_match, mbind, lift, item. cbn [nth_error].
  rewrite Hexists, (markdown_is_not_rust path Hmd).
  unfold print, read_file, ret. cbn [world console]. rewrite Hread.
  reflexivity.
Qed.

(** The turns for an empty markdown file leave the document as it is. *)
Lemma resolve_matches_empty (label path ext : string) (k : nat) :
  forall (readme : string) (st : state),
    path_exists (world st) path = true ->
    endswith ".md" path = true ->
    read_text (world st) path = Ok "" ->
    resolve_matches (repeat [label; path; ext] k) readme st
    = (Ok readme,
       State (world st) (console st ++ repeat (generating path) k)%list).
Proof.
  induction k as [|k IH]; intros readme st Hexists Hmd Hread.
  - cbn. rewrite app_nil_r. now destruct st.
  - cbn [repeat resolve_matches]. unfold mbind at 1.
    rewrite (resolve_match_empty label path ext readme st Hexists Hmd Hread).
    rewrite IH by assumption.
    cbn [world console]. now rewrite <- app_assoc.
Qed.

Lemma resolve_matches_missing (matches : list (list string)) :
  forall (readme : string) (st : state),
    (forall m, In m matches ->
       (exists a b c, m = [a; b; c])
       /\ path_exists (world st) (nth 1 m "") = false) ->
    resolve_matches matches readme st
    = (Ok readme,
       State (world st)
         (console st ++ map (fun m => not_found (nth 1 m "")) matches)%list).
Proof.
  induction matches as [|m matches IH]; intros readme st Hall.
  - cbn. rewrite app_nil_r. now destruct st.
  - destruct (Hall m (or_introl eq_refl)) as [(a & b & c & ->) Hmissing].
    cbn [nth] in Hmissing.
    cbn [resolve_matches]. unfold mbind at 1.
    rewrite (resolve_match_missing a b c readme st Hmissing).
    rewrite IH by (intros m' Hin; apply Hall; now right).
    cbn [world console map nth]. now rewrite <- app_assoc.
Qed.

(** The loop over a list of matches and then over another. *)
Lemma resolve_matches_app (front back : list (list string)) :
  forall (readme : string) (st : state),
    resolve_matches (front ++ back) readme st
    = match resolve_matches front readme st with
      | (Ok readme1, st1) => resolve_matches back readme1 st1
      | (Raise e, st1) => (Raise e, st1)
      end.
Proof.
  induction front as [|m front IH]; intros readme st; [reflexivity|].
  rewrite <- app_comm_cons. cbn [resolve_matches]. unfold mbind.
  destruct (resolve_match m readme st) as [[readme'|e] st']; [apply IH | reflexivity].
Qed.

(** Turns for a placeholder text that no longer occurs change nothing. *)
Lemma resolve_matches_again (label path ext content : string) (k : nat) :
  forall (readme : string) (st : state),
    path_exists (world st) path = true ->
    endswith ".md" path = true ->
    read_text (world st) path = Ok content ->
    content <> "" ->
    contains (placeholder label path) readme = false ->
    resolve_matches (repeat [label; path; ext] k) readme st
    = (Ok readme,
       State (world st)
         (console st ++ concat (repeat [generating path; replacing path] k))%list).
Proof.
  induction k as [|k IH]; intros readme st Hexists Hmd Hread Hcontent Habsent.
  - cbn. rewrite app_nil_r. now destruct st.
  - cbn [repeat resolve_matches]. unfold mbind at 1.
    rewrite (resolve_match_markdown label path ext readme content st
               Hexists Hmd Hread Hcontent).
    rewrite (replace_absent _ _ _ Habsent).
    rewrite IH by assumption.
    cbn [world console concat]. now rewrite <- app_assoc.
Qed.

End ResolverFacts.

(** C7, as the code has it.  A reference is resolved only when the file has
    some content.  The text looked for is the text the pattern matched, outer
    parentheses included.  For a path that exists, ends in [.md] and holds a
    non-empty content, one turn of the loop replaces every occurrence of that
    text in the current document by the content, verbatim.  In a document
    whose matches all carry this one text, the result is the document with
    every occurrence replaced, provided the content does not bring the text
    back.  For a path that exists, ends in [.md] and holds the empty
    content, the turn leaves the document as it is after the one line it
    prints, and so does the whole loop in a document whose matches all carry
    that text: the placeholder stays. *)
Theorem markdown_reference_is_replaced {W : Type} {host : Host W} :
  (forall doc label path ext,
     In [label; path; ext] (Re.findall docs_pattern 3 doc) ->
     contains (placeholder label path) doc = true
     /\ (ext = "md" \/ ext = "rs")
     /\ endswith ("." ++ ext) path = true)
  /\ (forall readme (st : state) label path ext content,
        path_exists (world st) path = true ->
        endswith ".md" path = true ->
        read_text (world st) path = Ok content ->
        content <> "" ->
        resolve_match [label; path; ext] readme st
        = (Ok (replace (placeholder label path) content readme),
           State (world st) (console st ++ [generating path; replacing path])%list))
  /\ (forall doc (st : state) label path ext content k,
        Re.findall docs_pattern 3 doc = repeat [label; path; ext] (S k) ->
        path_exists (world st) path = true ->
        endswith ".md" path = true ->
        read_text (world st) path = Ok content ->
        content <> "" ->
        contains (placeholder label path)
          (replace (placeholder label path) content doc) = false ->
        replace_docs_links doc st
        = (Ok (replace (placeholder label path) content doc),
           State (world st)
             (console st
              ++ concat (repeat [generating path; replacing path] (S k)))%list))
  /\ (forall readme (st : state) label path ext,
        path_exists (world st) path = true ->
        endswith ".md" path = true ->
        read_text (world st) path = Ok "" ->
        resolve_match [label; path; ext] readme st
        = (Ok readme, State (world st) (console st ++ [generating path])%list))
  /\ (forall doc (st : state) label path ext k,
        Re.findall docs_pattern 3 doc = repeat [label; path; ext] k ->
        path_exists (world st) path = true ->
        endswith ".md" path = true ->
        read_text (world st) path = Ok "" ->
        replace_docs_links doc st
        = (Ok doc,
           State (world st) (console st ++ repeat (generating path) k)%list)).
Proof.
  split; [|split; [|split; [|split]]].
  - intros doc label path ext Hin.
    apply findall_from_sound in Hin as (pre & suf & rest & caps & -> & Hmatch & Htuple).
    unfold Re.match_at in Hmatch.
    apply run_sound in Hmatch as (w & rest' & caps' & -> & Hw & Hk).
    injection Hk as -> ->.
    apply docs_pattern_matches in Hw
      as (label' & stem & ext' & -> & Hgroups & Hext & _).
    rewrite Hgroups in Htuple. injection Htuple as -> -> ->.
    split; [|split; [exact Hext|]].
    + apply contains_app.
    + apply endswith_app.
  - intros. now apply resolve_match_markdown.
  - intros doc st label path ext content k Hall Hexists Hmd Hread Hcontent Hgone.
    unfold replace_docs_links. rewrite Hall.
    cbn [repeat resolve_matches]. unfold mbind at 1.
    rewrite (resolve_match_markdown label path ext doc content st
               Hexists Hmd Hread Hcontent).
    rewrite (resolve_matches_again label path ext content k) by assumption.
    cbn [world console concat]. now rewrite <- app_assoc.
  - intros. now apply resolve_match_empty.
  - intros doc st label path ext k Hall Hexists Hmd Hread.
    unfold replace_docs_links. rewrite Hall.
    now apply resolve_matches_empty.
Qed.

Lemma markdown_reference_is_replaced_witness :
  replace_docs_links Demo.notes_doc (State Demo.with_notes [])
  = (Ok (replace (placeholder "Example" "NOTES.md") "Hello" Demo.notes_doc),
     State Demo.with_notes
       ([] ++ concat (repeat [generating "NOTES.md"; replacing "NOTES.md"] 2))%list).
Proof.
  apply (proj1 (proj2 (proj2 markdown_reference_is_replaced))
           Demo.notes_doc (State Demo.with_notes []) "Example" "NOTES.md" "md"
           "Hello" 1%nat);
    try (vm_compute; reflexivity).
  discriminate.
Defined.

(** C7, as the specification words it, fails: the placeholder of an existing
    empty file stays in the document. *)
Lemma empty_file_is_not_inlined :
  ~ markdown_link_replaced Demo.with_empty_notes Demo.notes_doc.
Proof.
  intros Hclaim.
  destruct (Hclaim "Example" "NOTES.md" "md" "") as (st' & Hrun);
    try (vm_compute; reflexivity).
  - vm_compute. left. reflexivity.
  - vm_compute. repeat constructor.
  - vm_compute in Hrun. discriminate Hrun.
Qed.

(** C8, as the code has it.  The turn of the loop for a path that does not
    exist leaves the document as it is, prints the diagnostic and raises
    nothing; wherever that match stands among the matches, the loop goes on
    with the next one on the text the earlier turns produced; when the paths
    of all the matches of a document are missing, the document is returned
    verbatim with one diagnostic per match. *)
Theorem missing_reference_is_skipped {W : Type} {host : Host W} :
  (forall label path ext readme (st : state),
     path_exists (world st) path = false ->
     resolve_match [label; path; ext] readme st
     = (Ok readme, State (world st) (console st ++ [not_found path])%list))
  /\ (forall earlier later label path ext readme (st : state) readme1 (st1 : state),
        resolve_matches earlier readme st = (Ok readme1, st1) ->
        path_exists (world st1) path = false ->
        resolve_matches (earlier ++ [label; path; ext] :: later) readme st
        = resolve_matches later readme1
            (State (world st1) (console st1 ++ [not_found path])%list))
  /\ (forall doc (st : state),
        (forall m, In m (Re.findall docs_pattern 3 doc) ->
           path_exists (world st) (nth 1 m "") = false) ->
        replace_docs_links doc st
        = (Ok doc,
           State (world st)
             (console st
              ++ map (fun m => not_found (nth 1 m ""))
                   (Re.findall docs_pattern 3 doc))%list)).
Proof.
  split; [|split].
  - intros. now apply resolve_match_missing.
  - intros earlier later label path ext readme st readme1 st1 Hearlier Hmissing.
    rewrite resolve_matches_app, Hearlier.
    cbn [resolve_matches]. unfold mbind at 1.
    now rewrite (resolve_match_missing label path ext readme1 st1 Hmissing).
  - intros doc st Hmissing. unfold replace_docs_links.
    apply resolve_matches_missing. intros m Hin.
    split; [now apply findall_three in Hin | now apply Hmissing].
Qed.

Lemma missing_reference_is_skipped_witness :
  replace_docs_links Demo.missing_doc (State Demo.with_notes [])
  = (Ok Demo.missing_doc,
     State Demo.with_notes
       ([] ++ map (fun m => not_found (nth 1 m ""))
                (Re.findall docs_pattern 3 Demo.missing_doc))%list).
Proof.
  apply (proj2 (proj2 missing_reference_is_skipped)
           Demo.missing_doc (State Demo.with_notes [])).
  vm_compute. intros m [<-|[]]. reflexivity.
Defined.

(** C8, as the specification words it, fails: a reference with a missing
    path is rewritten when its text ends in the text of a reference that
    resolves. *)
Lemma missing_reference_can_be_rewritten :
  ~ missing_left_verbatim Demo.with_x Demo.nested_doc.
Proof.
  intros Hclaim.
  destruct (Hclaim "L" "foo([docs: a](./x.md" "md") as (out & st' & Hrun & Hkept).
  - vm_compute. right. left. reflexivity.
  - vm_compute. reflexivity.
  - vm_compute in Hrun. injection Hrun as <- _.
    vm_compute in Hkept. discriminate Hkept.
Qed.

(** ** The built-ins and the whole script on concrete inputs *)

Section Examples.

Example str_of_float_examples :
  map float_round_trip
    ["66.7"; "80.0"; "100"; "1e16"; "1e15"; "0.0001"; "0.00001"; "-0.0";
     "1_0.5"; " .5 "; "0.1e1"; "nan"; "-Infinity"; "1e400"; "12e"; ""]
  = [Ok "66.7"; Ok "80.0"; Ok "100.0"; Ok "1e+16"; Ok "1000000000000000.0";
     Ok "0.0001"; Ok "1e-05"; Ok "-0.0"; Ok "10.5"; Ok "0.5"; Ok "1.0";
     Ok "nan"; Ok "-inf"; Ok "inf"; Raise ValueError; Raise ValueError].
Proof. vm_compute. reflexivity. Qed.

Example int_of_str_examples :
  map int_of_str ["8"; " 10 "; "08"; "+5"; "-0"; "1_000"; "1__0"; "8 / 10"; ""; "1.0"]
  = [Ok 8; Ok 10; Ok 8; Ok 5; Ok 0; Ok 1000; Raise ValueError;
     Raise ValueError; Raise ValueError; Raise ValueError].
Proof. vm_compute. reflexivity. Qed.

Example findall_examples :
  map (Re.findall docs_pattern 3)
    ["x([docs: a](./x.md))y([docs: b](./y.rs))"; "([docs: a](./.md))";
     "([docs: a](./x.md.rs))"; "([docs: ](./x.md))"; Demo.nested_doc]
  = [[["a"; "x.md"; "md"]; ["b"; "y.rs"; "rs"]]; [];
     [["a"; "x.md.rs"; "rs"]]; [];
     [["a"; "x.md"; "md"]; ["L"; "foo([docs: a](./x.md"; "md"]]].
Proof. vm_compute. reflexivity. Qed.

(** The end-to-end scenario of the specification: the title, then the table
    with its row [| lib.rs | ![](https://geps.dev/progress/80) | 80.0% | 8 | 10 |]. *)
Example end_to_end :
  let run := run_script Demo.with_report in
  fst run = Ok tt
  /\ Demo.lookup "README.md" (Demo.files (world (snd run)))
     = Some ("# Title" ++ String LF
             (header_line ++ String LF
             (separator_line ++ String LF
             ("| lib.rs | ![](https://geps.dev/progress/80) | 80.0% | 8 | 10 |"
              ++ String LF (String LF "")))))
  /\ Demo.lookup "TEST_STATUS.md" (Demo.files (world (snd run)))
     = Some (header_line ++ String LF
             (separator_line ++ String LF
             ("| lib.rs | ![](https://geps.dev/progress/80) | 80.0% | 8 | 10 |"
              ++ String LF ""))).
Proof. vm_compute. repeat split; reflexivity. Qed.

End Examples.

(* ===================================================================== *)
(** * Further properties of the script *)
(* ===================================================================== *)

Import Further.

(** ** Cells and rows of the report *)

Section ErrorKinds.

Lemma int_of_str_raises (s : string) (e : exn) :
  int_of_str s = Raise e -> e = ValueError.
Proof.
  unfold int_of_str. destruct (split_sign _) as [neg body].
  destruct (drop_underscores _ body) as [ds|]; [|now intros [= <-]].
  destruct (digits_value ds); [|now intros [= <-]].
  destruct (max_str_digits <? _); [now intros [= <-] | discriminate].
Qed.

Lemma float_of_str_raises (s : string) (e : exn) :
  float_of_str s = Raise e -> e = ValueError.
Proof.
  unfold float_of_str.
  destruct (drop_underscores _ _) as [u|]; [|now intros [= <-]].
  destruct (parse_float_literal u); [discriminate | now intros [= <-]].
Qed.

Lemma item_within {A} (i : nat) (l : list A) :
  (i < List.length l)%nat -> exists a, item i l = Ok a.
Proof.
  intros Hi. unfold item.
  destruct (nth_error l i) as [a|] eqn:Hnth; [eauto|].
  apply nth_error_None in Hnth. lia.
Qed.

End ErrorKinds.

(** [a, b = map(int, parts)] succeeds exactly on two integer literals and
    raises nothing but [ValueError]. *)
Theorem unpack_two_ints_spec (parts : list string) :
  (forall x y,
     unpack_two_ints parts = Ok (x, y)
     <-> exists a b, parts = [a; b] /\ int_of_str a = Ok x /\ int_of_str b = Ok y)
  /\ (forall e, unpack_two_ints parts = Raise e -> e = ValueError).
Proof.
  split.
  - intros x y. split.
    + destruct parts as [|a [|b [|c more]]]; cbn.
      * discriminate.
      * destruct (int_of_str a); cbn; discriminate.
      * destruct (int_of_str a) as [x'|] eqn:Ha; cbn; [|discriminate].
        destruct (int_of_str b) as [y'|] eqn:Hb; cbn; [|discriminate].
        intros [= -> ->]. eauto.
      * destruct (int_of_str a); cbn; [|discriminate].
        destruct (int_of_str b); cbn; [|discriminate].
        destruct (int_of_str c); cbn; discriminate.
    + intros (a & b & -> & Ha & Hb). cbn. rewrite Ha. cbn. now rewrite Hb.
  - intros e. destruct parts as [|a [|b [|c more]]]; cbn.
    + now intros [= <-].
    + destruct (int_of_str a) eqn:Ha; cbn; [now intros [= <-]|].
      intros [= <-]. now apply int_of_str_raises in Ha.
    + destruct (int_of_str a) eqn:Ha; cbn;
        [|intros [= <-]; now apply int_of_str_raises in Ha].
      destruct (int_of_str b) eqn:Hb; cbn;
        [discriminate|intros [= <-]; now apply int_of_str_raises in Hb].
    + destruct (int_of_str a) eqn:Ha; cbn;
        [|intros [= <-]; now apply int_of_str_raises in Ha].
      destruct (int_of_str b) eqn:Hb; cbn;
        [|intros [= <-]; now apply int_of_str_raises in Hb].
      destruct (int_of_str c) eqn:Hc; cbn; [now intros [= <-]|].
      intros [= <-]. now apply int_of_str_raises in Hc.
Qed.

Section SplitFacts.

Lemma split_slash_cons (c : ascii) (s : string) :
  split "/" (String c s)
  = if Ascii.eqb c "/" then "" :: split "/" s
    else match split "/" s with
         | w :: ws => String c w :: ws
         | [] => [String c ""]
         end.
Proof.
  unfold split. cbn [split_from String.prefix String.length Nat.sub].
  destruct (ascii_dec "/" c) as [<-|Hne].
  - now destruct s.
  - destruct (Ascii.eqb c "/") eqn:Hc; [|reflexivity].
    apply Ascii.eqb_eq in Hc. congruence.
Qed.

Lemma split_slash_nonempty (s : string) : split "/" s <> [].
Proof.
  destruct s as [|c s]; [discriminate|].
  rewrite split_slash_cons. destruct (Ascii.eqb c "/"); [discriminate|].
  destruct (split "/" s); discriminate.
Qed.

(** [s.split('/')] of a text without slash is the text itself. *)
Lemma split_slash_free (a : string) :
  count_char "/" a = O -> split "/" a = [a].
Proof.
  induction a as [|c a IH]; intros Hfree; [reflexivity|].
  apply count_char_cons_zero in Hfree as [Hc Ha].
  rewrite split_slash_cons, Hc, (IH Ha). reflexivity.
Qed.

Lemma split_slash_app (a b : string) :
  count_char "/" a = O -> split "/" (a ++ "/" ++ b) = a :: split "/" b.
Proof.
  induction a as [|c a IH]; intros Hfree.
  - change ("" ++ "/" ++ b) with (String "/" b). now rewrite split_slash_cons.
  - apply count_char_cons_zero in Hfree as [Hc Ha].
    change (String c a ++ "/" ++ b) with (String c (a ++ "/" ++ b)).
    rewrite split_slash_cons, Hc, (IH Ha). reflexivity.
Qed.

(** ['/'.join(s.split('/')) == s], and no part holds a slash. *)
Lemma split_slash_join (s : string) :
  String.concat "/" (split "/" s) = s
  /\ Forall (fun p => count_char "/" p = O) (split "/" s).
Proof.
  induction s as [|c s [IHjoin IHfree]]; [split; [reflexivity|repeat constructor]|].
  rewrite split_slash_cons.
  pose proof (split_slash_nonempty s) as Hne.
  destruct (Ascii.eqb c "/") eqn:Hc.
  - apply Ascii.eqb_eq in Hc as ->. split.
    + destruct (split "/" s) as [|w ws]; [contradiction|].
      cbn [String.concat]. cbn [String.concat] in IHjoin. now rewrite IHjoin.
    + constructor; [reflexivity | exact IHfree].
  - destruct (split "/" s) as [|w ws]; [contradiction|]. split.
    + cbn [String.concat] in *. destruct ws; rewrite <- IHjoin; reflexivity.
    + inversion IHfree as [|? ? Hw Hws]; subst.
      constructor; [|exact Hws]. cbn [count_char]. now rewrite Hc.
Qed.

End SplitFacts.

(** X1.  The covered/total cell is read exactly when its text is two integer
    literals around one slash; any other text raises [ValueError], a part of
    more than 4300 digits included. *)
Theorem covered_total_cell (s : string) :
  (forall x y,
     unpack_two_ints (split "/" s) = Ok (x, y)
     <-> exists a b,
           s = a ++ "/" ++ b
           /\ count_char "/" a = O /\ count_char "/" b = O
           /\ int_of_str a = Ok x /\ int_of_str b = Ok y)
  /\ (forall e, unpack_two_ints (split "/" s) = Raise e -> e = ValueError)
  /\ (forall a b,
        s = a ++ "/" ++ b ->
        all_digits a = true ->
        max_str_digits < Z.of_nat (String.length a) ->
        unpack_two_ints (split "/" s) = Raise ValueError).
Proof.
  split; [|split].
  - intros x y. split.
    + intros Hok.
      apply (proj1 (unpack_two_ints_spec _)) in Hok as (a & b & Hparts & Ha & Hb).
      destruct (split_slash_join s) as [Hjoin Hfree].
      rewrite Hparts in Hjoin, Hfree. cbn [String.concat] in Hjoin.
      inversion Hfree as [|? ? Hfa Hrest]; subst.
      inversion Hrest as [|? ? Hfb _]; subst.
      exists a, b. repeat split; assumption || (now symmetry).
    + intros (a & b & -> & Hfa & Hfb & Ha & Hb).
      rewrite (split_slash_app a b Hfa), (split_slash_free b Hfb).
      apply (proj1 (unpack_two_ints_spec _)). eauto.
  - apply unpack_two_ints_spec.
  - intros a b -> Hdigits Hlong.
    assert (Hfree : count_char "/" a = O).
    { clear Hlong. induction a as [|c a IH]; [reflexivity|].
      cbn [all_digits] in Hdigits. apply andb_true_iff in Hdigits as [Hc Ha].
      cbn [count_char]. rewrite (IH Ha).
      destruct c as [[] [] [] [] [] [] [] []]; try discriminate Hc; reflexivity. }
    rewrite (split_slash_app a b Hfree).
    pose proof (int_of_str_limit a Hdigits Hlong) as Hrefused.
    pose proof (split_slash_nonempty b) as Hne.
    destruct (split "/" b) as [|b1 more]; [contradiction|].
    cbn [unpack_two_ints]. rewrite Hrefused. reflexivity.
Qed.

Lemma covered_total_cell_witness :
  unpack_two_ints (split "/" (zeros 4301 ++ "/" ++ "1")) = Raise ValueError.
Proof.
  apply (proj2 (proj2 (covered_total_cell (zeros 4301 ++ "/" ++ "1")))
           (zeros 4301) "1");
    vm_compute; reflexivity.
Defined.

Section RowErrors.

Lemma round_raises (x : float) (e : exn) :
  round x = Raise e ->
  (x = S754_nan /\ e = ValueError)
  \/ ((exists s, x = S754_infinity s) /\ e = OverflowError).
Proof.
  destruct x as [s|s| |s m ex]; cbn; intros H; try discriminate H;
    injection H as <-; eauto.
Qed.

Lemma generate_row_raises (name : string) (x : float) (c t : Z) (e : exn) :
  generate_row name x c t = Raise e -> round x = Raise e.
Proof.
  unfold generate_row, generate_bar.
  destruct (round x) as [n|e']; cbn; [discriminate | now intros [= <-]].
Qed.

Lemma record_of_row_raises (row : node) (e : exn) :
  valid_row row = true ->
  record_of_row row = Raise e ->
  (e = AttributeError /\ find "th" row = None)
  \/ (e = ValueError /\ find "th" row <> None).
Proof.
  unfold valid_row, record_of_row. intros Hvalid%Nat.leb_le.
  destruct (find "th" row) as [th|]; cbn [bind];
    [|intros [= <-]; now left].
  destruct (item_within 1 (find_all "td" row) ltac:(lia)) as [cell1 ->].
  destruct (item_within 2 (find_all "td" row) ltac:(lia)) as [cell2 ->].
  cbn [bind]. intros Hraise. right. split; [|discriminate].
  destruct (float_of_str _) as [cov|e1] eqn:Hcov; cbn [bind] in Hraise.
  - destruct (unpack_two_ints _) as [ints|e2] eqn:Hints; cbn [bind] in Hraise;
      [discriminate Hraise|].
    injection Hraise as <-.
    now apply (proj2 (unpack_two_ints_spec _)) in Hints.
  - injection Hraise as <-. now apply float_of_str_raises in Hcov.
Qed.

End RowErrors.

(** X2.  A row of six cells or more raises [AttributeError] exactly when it has
    no [th] below it; apart from that a row raises [ValueError] (a cell that
    does not parse, a NaN coverage) or [OverflowError] (an infinite
    coverage), never [IndexError]; a short row raises nothing. *)
Theorem row_markdown_errors (row : node) :
  (row_markdown row = Raise AttributeError
   <-> valid_row row = true /\ find "th" row = None)
  /\ (forall e, row_markdown row = Raise e ->
        valid_row row = true
        /\ (e = AttributeError \/ e = ValueError \/ e = OverflowError)).
Proof.
  unfold row_markdown. destruct (valid_row row) eqn:Hvalid.
  - split.
    + split.
      * intros Hraise. split; [reflexivity|].
        destruct (record_of_row row) as [r|e] eqn:Hrec; cbn [bind] in Hraise.
        -- apply generate_row_raises, round_raises in Hraise
             as [[_ H]|[_ H]]; discriminate H.
        -- injection Hraise as ->.
           apply (record_of_row_raises row _ Hvalid) in Hrec as [[_ H]|[H _]];
             [exact H | discriminate H].
      * intros [_ Hth]. unfold record_of_row. rewrite Hth. reflexivity.
    + intros e Hraise. split; [reflexivity|].
      destruct (record_of_row row) as [r|e'] eqn:Hrec; cbn [bind] in Hraise.
      * apply generate_row_raises, round_raises in Hraise as [[_ ->]|[_ ->]]; auto.
      * injection Hraise as ->.
        apply (record_of_row_raises row _ Hvalid) in Hrec as [[-> _]|[-> _]]; auto.
  - split; [split; [discriminate | intros [H _]; discriminate H]|].
    intros e H. discriminate H.
Qed.

(** X3.  The first row that raises ends the whole report with its exception:
    the rows rendered before it are lost and the rows behind it are not
    looked at. *)
Theorem report_stops_at_first_error
    (soup : node) (pre post : list node) (row : node) (body : string) (e : exn) :
  tl (find_all "tr" soup) = (pre ++ row :: post)%list ->
  rows_markdown pre = Ok body ->
  row_markdown row = Raise e ->
  report_of_soup soup = Raise e.
Proof.
  intros Hrows Hpre Hrow. unfold report_of_soup. rewrite Hrows.
  rewrite report_rows_app, (report_rows_markdown pre), Hpre. cbn [bind].
  rewrite report_rows_cons, Hrow. reflexivity.
Qed.

Lemma report_stops_at_first_error_witness :
  report_of_soup broken_report = Raise AttributeError.
Proof.
  apply (report_stops_at_first_error broken_report
           [Demo.lib_row] [Demo.main_row] headless_row
           (lib_line ++ String LF "") AttributeError);
    vm_compute; reflexivity.
Defined.

(** X4.  A document without a row of six cells behind its first row gives the
    bare header, and nothing in it can raise. *)
Theorem report_of_short_rows (soup : node) :
  Forall (fun row => (List.length (find_all "td" row) < 6)%nat)
         (tl (find_all "tr" soup)) ->
  report_of_soup soup = Ok generate_header.
Proof.
  intros Hshort. unfold report_of_soup.
  generalize generate_header as acc.
  induction Hshort as [|row rows Hrow _ IH]; intros acc; [reflexivity|].
  rewrite report_rows_cons. unfold row_markdown, valid_row.
  replace (Nat.leb 6 (List.length (find_all "td" row))) with false
    by (symmetry; now apply Nat.leb_gt).
  cbn [bind]. rewrite append_empty_r. apply IH.
Qed.

Lemma report_of_short_rows_witness :
  report_of_soup (soup [Tag "table" [Demo.header_row; Demo.short_row]])
  = Ok generate_header.
Proof.
  apply report_of_short_rows. vm_compute. repeat constructor.
Defined.

(** X5.  The bar integer stays between any two integers the coverage lies
    between: a coverage of 0 to 100 gives a bar of 0 to 100. *)
Theorem generate_bar_between (x : float) (lo hi : Z) :
  is_finite x = true ->
  lo * float_den x <= float_num x <= hi * float_den x ->
  exists n, generate_bar x = Ok (bar_image n) /\ lo <= n <= hi.
Proof.
  intros Hfin [Hlo Hhi].
  exists (round_half_even (float_num x) (float_den x)).
  unfold generate_bar. rewrite (round_finite x Hfin). cbn [bind].
  split; [reflexivity|].
  pose proof (float_den_pos x) as Hden.
  unfold round_half_even.
  pose proof (Z.div_mod (float_num x) (float_den x) ltac:(lia)) as Hdm.
  pose proof (Z.mod_pos_bound (float_num x) (float_den x) Hden) as Hr.
  destruct (Z.compare_spec (2 * (float_num x mod float_den x)) (float_den x));
    [destruct (Z.even _)|..]; nia.
Qed.

Lemma generate_bar_between_witness :
  exists n,
    generate_bar (S754_finite false 4693595236650189 (-46)) = Ok (bar_image n)
    /\ 0 <= n <= 100.
Proof.
  apply generate_bar_between; [reflexivity|].
  vm_compute. split; discriminate.
Defined.


Section ColumnFacts.
Variable c : ascii.
Hypothesis Hc : mem_char c numeric_chars = false.

Lemma numeric_char_differs (d : ascii) :
  mem_char d numeric_chars = true -> Ascii.eqb d c = false.
Proof.
  intros Hd. destruct (Ascii.eqb d c) eqn:Heq; [|reflexivity].
  apply Ascii.eqb_eq in Heq. subst d. congruence.
Qed.

Ltac count_literal :=
  repeat (cbn [count_char]; rewrite numeric_char_differs by reflexivity).

Lemma count_substring_zero (n m : nat) (s : string) :
  count_char c s = O -> count_char c (String.substring n m s) = O.
Proof.
  revert n m. induction s as [|x s IH]; intros n m Hno.
  - destruct n, m; reflexivity.
  - apply count_char_cons_zero in Hno as [Hx Hs].
    destruct n as [|n]; [destruct m as [|m]|]; cbn [String.substring].
    + reflexivity.
    + cbn [count_char]. rewrite Hx. now apply IH.
    + now apply IH.
Qed.

Lemma count_rstrip_zero (p : ascii -> bool) (s : string) :
  count_char c s = O -> count_char c (rstrip_by p s) = O.
Proof.
  induction s as [|x s IH]; intros Hno; [reflexivity|].
  apply count_char_cons_zero in Hno as [Hx Hs]. specialize (IH Hs).
  cbn [rstrip_by]. destruct (rstrip_by p s) as [|y r].
  - destruct (p x); cbn [count_char]; [reflexivity | now rewrite Hx].
  - cbn [count_char] in *. now rewrite Hx.
Qed.

Lemma count_zeros (n : nat) : count_char c (zeros n) = O.
Proof. induction n as [|n IH]; [reflexivity|]. cbn [zeros]. now count_literal. Qed.

Lemma count_uint (d : Decimal.uint) :
  count_char c (NilEmpty.string_of_uint d) = O.
Proof. induction d; cbn [NilEmpty.string_of_uint]; count_literal; auto. Qed.

Lemma count_str_of_int (n : Z) : count_char c (str_of_int n) = O.
Proof.
  unfold str_of_int, NilZero.string_of_int, NilZero.string_of_uint.
  destruct (Z.to_int n) as [d|d]; destruct d;
    try (change (count_char c "0" = O); now count_literal);
    try (change (count_char c "-0" = O); now count_literal);
    count_literal; apply (count_uint (_ d)) || apply count_uint.
Qed.

Lemma count_repr_exponent (ex : Z) : count_char c (repr_exponent ex) = O.
Proof.
  unfold repr_exponent. rewrite !count_char_append, count_str_of_int.
  destruct (ex <? 0)%Z; destruct (Nat.ltb _ 2); now count_literal.
Qed.

Lemma count_repr_layout (ds : string) (decpt : Z) :
  count_char c ds = O -> count_char c (repr_layout ds decpt) = O.
Proof.
  intros Hds. unfold repr_layout.
  destruct ((decpt <=? -4) || (16 <? decpt))%bool%Z.
  - rewrite !count_char_append, count_repr_exponent, count_substring_zero
      by assumption.
    destruct (Nat.ltb 1 (String.length ds)); [|reflexivity].
    rewrite count_char_append, count_substring_zero by assumption.
    now count_literal.
  - destruct (decpt <=? 0)%Z.
    + rewrite !count_char_append, count_zeros, Hds. now count_literal.
    + destruct (decpt <? Z.of_nat (String.length ds))%Z.
      * rewrite !count_char_append, !count_substring_zero by assumption.
        now count_literal.
      * rewrite !count_char_append, count_zeros, Hds. now count_literal.
Qed.

Lemma count_str_of_float (x : float) : count_char c (str_of_float x) = O.
Proof.
  destruct x as [s|s| |s m e]; cbn [str_of_float].
  - destruct s; now count_literal.
  - destruct s; now count_literal.
  - now count_literal.
  - rewrite count_char_append. unfold repr_positive.
    destruct (shortest_from 17 m e _) as [d u].
    rewrite count_repr_layout by apply count_rstrip_zero, count_str_of_int.
    destruct s; now count_literal.
Qed.

End ColumnFacts.

(** X6.  A rendered row holds six column separators and one line end, plus
    those its file name brings: a name with a ['|'] or a line break shifts
    the columns or breaks the row. *)
Theorem generate_row_shape (name : string) (x : float) (c t : Z) (row : string) :
  generate_row name x c t = Ok row ->
  count_char "|" row = (6 + count_char "|" name)%nat
  /\ count_char LF row = (1 + count_char LF name)%nat
  /\ count_char "|" header_line = 6%nat
  /\ count_char "|" separator_line = 6%nat.
Proof.
  intros Hrow.
  destruct (round x) as [n|e] eqn:Hround.
  - rewrite (generate_row_line name x c t n Hround) in Hrow.
    apply (f_equal (fun r => match r with Ok s => s | Raise _ => "" end)) in Hrow.
    subst row. unfold row_line, bar_image.
    cbn [file_name line_coverage lines_covered lines_total].
    rewrite !count_char_append.
    rewrite !(count_str_of_int "|" eq_refl), (count_str_of_float "|" eq_refl).
    rewrite !(count_str_of_int LF eq_refl), (count_str_of_float LF eq_refl).
    repeat split; cbn; lia.
  - unfold generate_row, generate_bar in Hrow. rewrite Hround in Hrow.
    discriminate Hrow.
Qed.

Lemma generate_row_shape_witness :
  count_char "|" (lib_line ++ String LF "") = (6 + count_char "|" "lib.rs")%nat
  /\ count_char LF (lib_line ++ String LF "") = (1 + count_char LF "lib.rs")%nat
  /\ count_char "|" header_line = 6%nat
  /\ count_char "|" separator_line = 6%nat.
Proof.
  apply (generate_row_shape "lib.rs" (S754_finite false 5629499534213120 (-46)) 8 10).
  vm_compute. reflexivity.
Defined.

Section LineCount.

Lemma row_markdown_line (row : node) (text : string) :
  valid_row row = true -> row_markdown row = Ok text ->
  (1 <= count_char LF text)%nat.
Proof.
  intros Hvalid. unfold row_markdown. rewrite Hvalid.
  destruct (record_of_row row) as [[name cov c t]|e]; cbn [bind]; [|discriminate].
  cbn [file_name line_coverage lines_covered lines_total].
  destruct (round cov) as [n|e] eqn:Hround.
  - rewrite (generate_row_line name cov c t n Hround). intros Heq.
    assert (Htext : text = row_line (Coverage name cov c t) n ++ String LF "")
      by congruence.
    rewrite Htext, count_char_append. cbn. lia.
  - unfold generate_row, generate_bar. rewrite Hround. discriminate.
Qed.

Lemma rows_markdown_line_count (data : list node) :
  forall body,
    Forall (fun row => valid_row row = true) data ->
    rows_markdown data = Ok body ->
    (List.length data <= count_char LF body)%nat.
Proof.
  induction data as [|row data IH]; intros body Hvalid Hbody; [cbn; lia|].
  inversion Hvalid as [|? ? Hrow Hrest]; subst.
  cbn [rows_markdown] in Hbody.
  destruct (row_markdown row) as [text|e] eqn:Htext; cbn [bind] in Hbody;
    [|discriminate Hbody].
  destruct (rows_markdown data) as [rest|e] eqn:Hdata; cbn [bind] in Hbody;
    [|discriminate Hbody].
  assert (Hsplit : body = text ++ rest) by congruence.
  rewrite Hsplit, count_char_append.
  pose proof (row_markdown_line row text Hrow Htext).
  pose proof (IH rest Hrest eq_refl). cbn [List.length]. lia.
Qed.

End LineCount.

(** X7.  Whatever the file names hold, a report that is returned has two header
    lines and at least one line per valid row behind the first: N valid
    rows give N + 2 line ends or more. *)
Theorem report_line_count (soup : node) (table : string) :
  report_of_soup soup = Ok table ->
  (List.length (data_rows soup) + 2 <= count_char LF table)%nat.
Proof.
  unfold report_of_soup. rewrite report_rows_markdown, rows_markdown_filter.
  fold (data_rows soup).
  destruct (rows_markdown (data_rows soup)) as [body|e] eqn:Hbody; cbn [bind];
    [|discriminate].
  intros Heq.
  assert (Htable : table = generate_header ++ body) by congruence.
  rewrite Htable, count_char_append.
  assert (Hvalid : Forall (fun row => valid_row row = true) (data_rows soup)).
  { apply Forall_forall. intros row Hin. now apply filter_In in Hin. }
  pose proof (rows_markdown_line_count _ body Hvalid Hbody).
  change (count_char LF generate_header) with 2%nat. lia.
Qed.

Lemma report_line_count_witness :
  (List.length (data_rows Demo.report_soup) + 2
   <= count_char LF (generate_header ++ lib_line ++ String LF ""))%nat.
Proof.
  apply report_line_count. vm_compute. reflexivity.
Defined.

(** ** The marker and the references *)


Section ReplaceFacts.

(** Stepping over [w] brings the scan behind it. *)
Lemma replace_from_skip (old new w b : string) :
  replace_from old new (String.length w) (w ++ b) = replace_from old new 0 b.
Proof. induction w as [|c w IH]; [reflexivity | exact IH]. Qed.

(** At an occurrence the new text is put and is not scanned again. *)
Lemma replace_from_here (c : ascii) (old new b : string) :
  replace_from (String c old) new 0 (String c old ++ b)
  = new ++ replace_from (String c old) new 0 b.
Proof.
  change (String c old ++ b) with (String c (old ++ b)).
  cbn [replace_from].
  change (String c (old ++ b)) with (String c old ++ b).
  rewrite prefix_app. cbn [String.length Nat.sub].
  now rewrite Nat.sub_0_r, replace_from_skip.
Qed.

(** Text without the first character of [old] is copied. *)
Lemma replace_from_copy (c : ascii) (old new a s : string) :
  count_char c a = O ->
  replace_from (String c old) new 0 (a ++ s)
  = a ++ replace_from (String c old) new 0 s.
Proof.
  induction a as [|d a IH]; intros Hfree; [reflexivity|].
  apply count_char_cons_zero in Hfree as [Hd Ha].
  change (String d a ++ s) with (String d (a ++ s)).
  cbn [replace_from String.prefix].
  destruct (ascii_dec c d) as [->|_]; [now rewrite Ascii.eqb_refl in Hd|].
  cbn [append]. now rewrite (IH Ha).
Qed.

Lemma contains_needs_first (c : ascii) (old s : string) :
  count_char c s = O -> contains (String c old) s = false.
Proof.
  induction s as [|d s IH]; intros Hfree; [reflexivity|].
  apply count_char_cons_zero in Hfree as [Hd Hs].
  cbn [contains String.prefix].
  destruct (ascii_dec c d) as [->|_]; [now rewrite Ascii.eqb_refl in Hd|].
  now rewrite (IH Hs).
Qed.

End ReplaceFacts.

(** X8.  The marker is replaced where it stands and the scan goes on behind the
    table, which is not scanned itself: in front of the first marker (text
    without an opening bracket) nothing changes. *)
Theorem replace_test_status_at_marker (front back table : string) :
  count_char "[" front = O ->
  replace_test_status (front ++ test_status_marker ++ back) table
  = front ++ table ++ replace_test_status back table.
Proof.
  intros Hfront. unfold replace_test_status, test_status_marker, replace.
  rewrite replace_from_copy by exact Hfront.
  now rewrite replace_from_here.
Qed.

Lemma replace_test_status_at_marker_witness :
  replace_test_status ("# Title " ++ test_status_marker ++ " end") "TABLE"
  = "# Title " ++ "TABLE" ++ replace_test_status " end" "TABLE".
Proof.
  apply replace_test_status_at_marker. reflexivity.
Defined.

Section ResolverMore.
Context {W : Type} {host : Host W}.

Lemma findall_without_opening (s : string) :
  forall skip,
    contains "([docs: " s = false ->
    Re.findall_from docs_pattern 3 skip s = [].
Proof.
  induction s as [|c s IH]; intros skip Hno; [reflexivity|].
  cbn [contains] in Hno. apply orb_false_iff in Hno as [Hhere Hrest].
  cbn [Re.findall_from]. destruct skip as [|skip]; [|now apply IH].
  unfold Re.match_at, docs_pattern. cbn [Re.run]. rewrite Hhere.
  now apply IH.
Qed.

End ResolverMore.

(** X9.  A document in which the text [([docs: ] does not occur is returned as it
    is: nothing is printed, no path is looked up and the tool is not run. *)
Theorem replace_docs_links_without_opening {W : Type} {host : Host W}
    (doc : string) (st : state) :
  contains "([docs: " doc = false ->
  replace_docs_links doc st = (Ok doc, st).
Proof.
  intros Hno. unfold replace_docs_links, Re.findall.
  now rewrite findall_without_opening.
Qed.

Lemma replace_docs_links_without_opening_witness :
  replace_docs_links "# Title (plain)" (State Demo.with_notes [])
  = (Ok "# Title (plain)", State Demo.with_notes []).
Proof.
  apply replace_docs_links_without_opening. reflexivity.
Defined.

(** X10.  A reference to an existing [.rs] file runs the tool on that file alone
    with the four [--no-...] options.  Its output, when not empty, replaces
    the placeholder; an empty output or a failure of the tool leaves the
    document as it is and the loop goes on; only a tool that cannot be run
    raises. *)
Theorem rust_reference {W : Type} {host : Host W}
    (label path ext readme : string) (st : state) (w' : W) :
  path_exists (world st) path = true ->
  endswith ".rs" path = true ->
  (forall out,
     subprocess_run (world st) (scoped_command path) = (Completed out, w') ->
     resolve_match [label; path; ext] readme st
     = if truthy (Some out)
       then (Ok (replace (placeholder label path) out readme),
             State w' (console st ++ [generating path; replacing path])%list)
       else (Ok readme, State w' (console st ++ [generating path])%list))
  /\ (forall message stderr,
        subprocess_run (world st) (scoped_command path)
        = (CalledProcessError message stderr, w') ->
        resolve_match [label; path; ext] readme st
        = (Ok readme,
           State w' (console st
                     ++ [generating path;
                         ("An error occurred while running 'cargo readme': " ++ message)%string;
                         ("Error output: " ++ stderr)%string])%list))
  /\ (forall e,
        subprocess_run (world st) (scoped_command path) = (LaunchError e, w') ->
        resolve_match [label; path; ext] readme st
        = (Raise e, State w' (console st ++ [generating path])%list)).
Proof.
  intros Hexists Hrs.
  assert (Hstep : resolve_match [label; path; ext] readme st
                  = match run_cargo_readme
                            (Some ["-i"; path; "--no-template"; "--no-license";
                                   "--no-badges"; "--no-title"])
                            (State (world st) (console st ++ [generating path])%list) with
                    | (Ok file_content, st1) =>
                        if truthy file_content then
                          (Ok (replace (placeholder label path)
                                 (match file_content with Some c => c | None => "" end)
                                 readme),
                           State (world st1) (console st1 ++ [replacing path])%list)
                        else (Ok readme, st1)
                    | (Raise e, st1) => (Raise e, st1)
                    end).
  { unfold resolve_match, mbind, lift, item. cbn [nth_error].
    rewrite Hexists, Hrs. unfold print at 1.
    destruct (run_cargo_readme _ _) as [[file_content|e] st1]; [|reflexivity].
    destruct (truthy file_content); reflexivity. }
  split; [|split].
  - intros out Htool. rewrite Hstep.
    rewrite (run_cargo_readme_completed
               (Some ["-i"; path; "--no-template"; "--no-license"; "--no-badges"; "--no-title"])
              (State (world st) (console st ++ [generating path])%list) out w' Htool).
    cbn [world console].
    destruct (truthy (Some out)); [|reflexivity].
    now rewrite <- app_assoc.
  - intros message stderr Htool. rewrite Hstep.
    rewrite (run_cargo_readme_failed
               (Some ["-i"; path; "--no-template"; "--no-license"; "--no-badges"; "--no-title"])
              (State (world st) (console st ++ [generating path])%list) message stderr w' Htool).
    cbn [truthy world console]. now rewrite <- app_assoc.
  - intros e Htool. rewrite Hstep.
    now rewrite (run_cargo_readme_not_launched
                   (Some ["-i"; path; "--no-template"; "--no-license"; "--no-badges"; "--no-title"])
              (State (world st) (console st ++ [generating path])%list) e w' Htool).
Qed.

Lemma rust_reference_witness :
  resolve_match ["Api"; "lib.rs"; "rs"] api_doc (State with_lib [])
  = if truthy (Some ("# Title" ++ String LF (test_status_marker ++ String LF "")))
    then (Ok (replace (placeholder "Api" "lib.rs")
                ("# Title" ++ String LF (test_status_marker ++ String LF ""))
                api_doc),
          State with_lib ([] ++ [generating "lib.rs"; replacing "lib.rs"])%list)
    else (Ok api_doc, State with_lib ([] ++ [generating "lib.rs"])%list).
Proof.
  apply (proj1 (rust_reference (host := Demo.demo_host) "Api" "lib.rs" "rs" api_doc (State with_lib [])
                  with_lib
                  ltac:(vm_compute; reflexivity)
                  ltac:(vm_compute; reflexivity))).
  vm_compute. reflexivity.
Defined.

Section WorldUntouched.
Context {W : Type} {host : Host W}.

Lemma resolve_match_keeps_world (a path c readme : string) (st : state) :
  endswith ".rs" path = false ->
  world (snd (resolve_match [a; path; c] readme st)) = world st
  /\ exists log, console (snd (resolve_match [a; path; c] readme st))
                 = (console st ++ log)%list.
Proof.
  intros Hrs. unfold resolve_match, mbind, lift, item, print, read_file, ret.
  cbn [nth_error]. destruct (path_exists (world st) path).
  - rewrite Hrs. cbn [world console].
    destruct (read_text (world st) path) as [[|ch content]|e];
      cbn [truthy snd world console]; (split; [reflexivity|]); eauto.
    exists [generating path; replacing path]. now rewrite <- app_assoc.
  - cbn [snd world console]. eauto.
Qed.

Lemma resolve_matches_keep_world (matches : list (list string)) :
  forall (readme : string) (st : state),
    Forall (fun m => exists a path c,
                m = [a; path; c] /\ endswith ".rs" path = false) matches ->
    world (snd (resolve_matches matches readme st)) = world st
    /\ exists log, console (snd (resolve_matches matches readme st))
                   = (console st ++ log)%list.
Proof.
  induction matches as [|m matches IH]; intros readme st Hall.
  - cbn. split; [reflexivity|]. exists []. now rewrite app_nil_r.
  - inversion Hall as [|? ? (a & path & c & -> & Hrs) Hrest]; subst.
    cbn [resolve_matches]. unfold mbind.
    destruct (resolve_match_keeps_world a path c readme st Hrs) as [Hw [log Hlog]].
    destruct (resolve_match [a; path; c] readme st) as [[readme'|e] st1].
    + cbn [snd] in Hw, Hlog.
      destruct (IH readme' st1 Hrest) as [Hw' [log' Hlog']].
      rewrite Hw', Hw, Hlog', Hlog. split; [reflexivity|].
      exists (log ++ log')%list. now rewrite app_assoc.
    + cbn [snd] in *. split; [exact Hw | eauto].
Qed.

End WorldUntouched.

(** X11.  As long as no reference of the document ends in [.rs], the resolver
    leaves the world as it is, whatever it returns or raises: the tool is
    not run and no file is written; the console only grows. *)
Theorem resolver_keeps_world {W : Type} {host : Host W} (doc : string) (st : state) :
  (forall m, In m (Re.findall docs_pattern 3 doc) -> endswith ".rs" (nth 1 m "") = false) ->
  world (snd (replace_docs_links doc st)) = world st
  /\ exists log, console (snd (replace_docs_links doc st)) = (console st ++ log)%list.
Proof.
  intros Hmd. unfold replace_docs_links.
  apply resolve_matches_keep_world. apply Forall_forall. intros m Hin.
  destruct (findall_three _ _ _ Hin) as (a & path & c & ->).
  exists a, path, c. split; [reflexivity|]. exact (Hmd _ Hin).
Qed.

Lemma resolver_keeps_world_witness :
  world (snd (replace_docs_links Demo.notes_doc (State Demo.with_notes [])))
  = world (State Demo.with_notes [])
  /\ exists log,
       console (snd (replace_docs_links Demo.notes_doc (State Demo.with_notes [])))
       = (console (State Demo.with_notes []) ++ log)%list.
Proof.
  apply resolver_keeps_world.
  vm_compute. intros m [<-|[<-|[]]]; reflexivity.
Defined.


Section GreedyFacts.

Lemma drop_app (w s : string) : Re.drop (String.length w) (w ++ s) = s.
Proof. induction w as [|c w IH]; [now destruct s | exact IH]. Qed.

Lemma run_str {R : Type} (lit s : string) (caps : Re.captures)
    (k : string -> Re.captures -> option R) :
  Re.run (Re.Str lit) (lit ++ s) caps k = k s caps.
Proof. cbn [Re.run]. now rewrite prefix_app, drop_app. Qed.

(** A greedy run of characters other than [c], in front of [c] or of the
    end of the text. *)
Lemma run_plus_notchar {R : Type} (c : ascii) (w rest : string)
    (caps : Re.captures) (k : string -> Re.captures -> option R) :
  count_char c w = O ->
  rest = "" \/ (exists r, rest = String c r) ->
  Re.run (Re.Plus (Re.NotChar c)) (w ++ rest) caps k
  = longest_first (fun s => k s caps) w rest.
Proof.
  intros Hfree Hrest. cbn [Re.run].
  match goal with |- ?loop _ _ _ = _ => set (L := loop) end.
  assert (Hstop : forall fuel, L fuel rest caps = None).
  { intros fuel. destruct Hrest as [->|[r ->]]; destruct fuel; cbn;
      rewrite ?Ascii.eqb_refl; reflexivity. }
  enough (Hall : forall w fuel,
             count_char c w = O -> (String.length w <= S fuel)%nat ->
             L fuel (w ++ rest) caps = longest_first (fun s => k s caps) w rest).
  { apply Hall; [exact Hfree | rewrite length_append; lia]. }
  clear w Hfree. induction w as [|d w IH]; intros fuel Hfree Hlen.
  - apply Hstop.
  - apply count_char_cons_zero in Hfree as [Hd Hw].
    cbn [String.length] in Hlen.
    destruct fuel as [|fuel].
    + destruct w; [|cbn in Hlen; lia].
      cbn. rewrite Hd. reflexivity.
    + change (L (S fuel) (String d w ++ rest) caps)
        with (if Ascii.eqb d c then None
              else if Nat.ltb (String.length (w ++ rest))
                              (String.length (String d (w ++ rest)))
                   then match L fuel (w ++ rest) caps with
                        | Some x => Some x
                        | None => k (w ++ rest) caps
                        end
                   else k (w ++ rest) caps).
      rewrite Hd.
      replace (Nat.ltb _ _) with true
        by (symmetry; apply Nat.ltb_lt; cbn [String.length]; lia).
      rewrite IH by (assumption || lia). reflexivity.
Qed.

Lemma longest_first_whole {R : Type} (k : string -> option R) (w rest : string) (x : R) :
  w <> "" -> k rest = Some x -> longest_first k w rest = Some x.
Proof.
  intros Hw Hk. induction w as [|d w IH]; [contradiction|].
  cbn [longest_first]. destruct w as [|d' w].
  - cbn. exact Hk.
  - now rewrite IH.
Qed.

(** Three characters given back: the split in front of them is taken when
    the three longer ones fail. *)
Lemma longest_first_back3 {R : Type} (k : string -> option R)
    (stem rest : string) (a b c : ascii) (x : R) :
  stem <> "" ->
  k rest = None ->
  k (String c rest) = None ->
  k (String b (String c rest)) = None ->
  k (String a (String b (String c rest))) = Some x ->
  longest_first k (stem ++ String a (String b (String c ""))) rest = Some x.
Proof.
  intros Hstem H0 H1 H2 H3. induction stem as [|d stem IH]; [contradiction|].
  destruct stem as [|d' stem].
  - cbn. now rewrite H0, H1, H2.
  - change (String d (String d' stem) ++ String a (String b (String c "")))
      with (String d (String d' stem ++ String a (String b (String c "")))).
    cbn [longest_first]. cbn [longest_first] in IH.
    now rewrite IH.
Qed.

End GreedyFacts.

Section PatternComplete.

Lemma run_cat {R : Type} (r1 r2 : Re.regex) (s : string) (caps : Re.captures)
    (k : string -> Re.captures -> option R) :
  Re.run (Re.Cat r1 r2) s caps k
  = Re.run r1 s caps (fun s1 c1 => Re.run r2 s1 c1 k).
Proof. reflexivity. Qed.

Lemma run_group {R : Type} (i : nat) (r : Re.regex) (s : string)
    (caps : Re.captures) (k : string -> Re.captures -> option R) :
  Re.run (Re.Group i r) s caps k
  = Re.run r s caps (fun s1 c1 => k s1 ((i, Re.consumed s s1) :: c1)).
Proof. reflexivity. Qed.

Lemma run_extension {R : Type} (ext rest : string) (caps : Re.captures)
    (k : string -> Re.captures -> option R) :
  ext = "md" \/ ext = "rs" ->
  Re.run (Re.Alt (Re.Str "md") (Re.Str "rs")) (ext ++ rest) caps k
  = match k rest caps with
    | Some x => Some x
    | None => if String.eqb ext "md" then None else k rest caps
    end.
Proof.
  intros [-> | ->].
  - change (Re.run (Re.Alt (Re.Str "md") (Re.Str "rs")) ("md" ++ rest) caps k)
      with (match Re.run (Re.Str "md") ("md" ++ rest) caps k with
            | Some x => Some x
            | None => Re.run (Re.Str "rs") ("md" ++ rest) caps k
            end).
    rewrite run_str. destruct (k rest caps); reflexivity.
  - change (Re.run (Re.Alt (Re.Str "md") (Re.Str "rs")) ("rs" ++ rest) caps k)
      with (Re.run (Re.Str "rs") ("rs" ++ rest) caps k).
    rewrite run_str. destruct (k rest caps); reflexivity.
Qed.

(** A well-formed placeholder at the start of the text is matched whole,
    with its label, path and extension as the groups. *)
Lemma match_placeholder (label stem ext tail : string) :
  label <> "" -> count_char "]" label = O ->
  stem <> "" -> count_char ")" stem = O ->
  ext = "md" \/ ext = "rs" ->
  Re.match_at docs_pattern (placeholder label (stem ++ "." ++ ext) ++ tail)
  = Some (tail,
          [(2%nat, stem ++ "." ++ ext); (3%nat, ext); (1%nat, label)]).
Proof.
  intros Hlabel Hlabel' Hstem Hstem' Hext.
  unfold Re.match_at, docs_pattern, placeholder.
  remember (stem ++ "." ++ ext) as path eqn:Hpath.
  assert (Hpath' : count_char ")" path = O).
  { subst path. rewrite !count_char_append, Hstem'.
    destruct Hext as [-> | ->]; reflexivity. }
  rewrite !append_assoc.
  rewrite run_cat, run_str.
  rewrite run_cat, run_group.
  rewrite run_plus_notchar; [|exact Hlabel'|right; eexists; reflexivity].
  apply longest_first_whole; [exact Hlabel|].
  rewrite consumed_app.
  rewrite run_cat, run_str.
  rewrite run_cat, run_group, run_cat.
  rewrite run_plus_notchar; [|exact Hpath'|right; eexists; reflexivity].
  assert (Hgood :
    Re.run (Re.Cat (Re.Str ".") (Re.Group 3 (Re.Alt (Re.Str "md") (Re.Str "rs"))))
      ("." ++ ext ++ "))" ++ tail) [(1%nat, label)]
      (fun s1 c1 =>
         Re.run (Re.Str "))") s1
           ((2%nat, Re.consumed (path ++ "))" ++ tail) s1) :: c1)
           (fun rest caps => Some (rest, caps)))
    = Some (tail, [(2%nat, path); (3%nat, ext); (1%nat, label)])).
  { rewrite run_cat, run_str, run_group, run_extension by exact Hext.
    rewrite !consumed_app, run_str. reflexivity. }
  subst path.
  destruct Hext as [-> | ->].
  - apply (longest_first_back3 _ stem ("))" ++ tail) "." "m" "d");
      [exact Hstem|reflexivity..|exact Hgood].
  - apply (longest_first_back3 _ stem ("))" ++ tail) "." "r" "s");
      [exact Hstem|reflexivity..|exact Hgood].
Qed.

End PatternComplete.

Section FindallComplete.

Lemma findall_from_skip (r : Re.regex) (n : nat) (w b : string) :
  Re.findall_from r n (String.length w) (w ++ b) = Re.findall_from r n 0 b.
Proof. induction w as [|c w IH]; [reflexivity | exact IH]. Qed.

(** Text without an opening parenthesis holds no match. *)
Lemma findall_from_copy (front s : string) :
  count_char "(" front = O ->
  Re.findall_from docs_pattern 3 0 (front ++ s)
  = Re.findall_from docs_pattern 3 0 s.
Proof.
  induction front as [|d front IH]; intros Hfree; [reflexivity|].
  apply count_char_cons_zero in Hfree as [Hd Hfront].
  change (String d front ++ s) with (String d (front ++ s)).
  cbn [Re.findall_from].
  assert (Hnone : Re.match_at docs_pattern (String d (front ++ s)) = None).
  { unfold Re.match_at, docs_pattern. cbn [Re.run String.prefix].
    destruct (ascii_dec "(" d) as [<-|_]; [discriminate Hd | reflexivity]. }
  rewrite Hnone. now apply IH.
Qed.

Lemma findall_here (label stem ext tail : string) :
  label <> "" -> count_char "]" label = O ->
  stem <> "" -> count_char ")" stem = O ->
  ext = "md" \/ ext = "rs" ->
  Re.findall_from docs_pattern 3 0 (placeholder label (stem ++ "." ++ ext) ++ tail)
  = [label; stem ++ "." ++ ext; ext] :: Re.findall_from docs_pattern 3 0 tail.
Proof.
  intros Hlabel Hlabel' Hstem Hstem' Hext.
  pose proof (match_placeholder label stem ext tail
                Hlabel Hlabel' Hstem Hstem' Hext) as Hmatch.
  remember (placeholder label (stem ++ "." ++ ext)) as p eqn:Hp.
  assert (Hshape : exists q, p = String "(" q) by (subst p; eexists; reflexivity).
  destruct Hshape as [q ->].
  change (String "(" q ++ tail) with (String "(" (q ++ tail)) in *.
  cbn [Re.findall_from]. rewrite Hmatch.
  cbn [String.length]. rewrite length_append.
  replace (S (String.length q + String.length tail) - String.length tail - 1)%nat
    with (String.length q) by lia.
  now rewrite findall_from_skip.
Qed.

End FindallComplete.

(** X12.  Recognition.  A placeholder [([docs: label](./stem.ext))] with a
    non-empty label free of [']'], a non-empty stem free of [')'] and the
    extension [md] or [rs] is found by the scan, with the label, the path
    and the extension as its groups, when no opening parenthesis stands in
    front of it; the scan goes on behind it. *)
Theorem placeholder_is_found (front label stem ext back : string) :
  count_char "(" front = O ->
  label <> "" -> count_char "]" label = O ->
  stem <> "" -> count_char ")" stem = O ->
  ext = "md" \/ ext = "rs" ->
  Re.findall docs_pattern 3
    (front ++ placeholder label (stem ++ "." ++ ext) ++ back)
  = [label; stem ++ "." ++ ext; ext] :: Re.findall docs_pattern 3 back.
Proof.
  intros Hfront Hlabel Hlabel' Hstem Hstem' Hext. unfold Re.findall.
  rewrite findall_from_copy by exact Hfront.
  now apply findall_here.
Qed.

Lemma placeholder_is_found_witness :
  Re.findall docs_pattern 3
    ("See " ++ placeholder "Example" ("NOTES" ++ "." ++ "md") ++ " now")
  = ["Example"; "NOTES" ++ "." ++ "md"; "md"] :: Re.findall docs_pattern 3 " now".
Proof.
  apply placeholder_is_found;
    try reflexivity; try discriminate. now left.
Defined.

(** X13.  A document with one reference, nothing else in it holding an opening
    parenthesis.  When the markdown file exists and is not empty, the result
    is the document with the content of the file in the place of the
    placeholder; when the path does not exist, the result is the document
    itself and one diagnostic names the path. *)
Theorem single_reference {W : Type} {host : Host W}
    (front label stem back : string) (st : state) :
  count_char "(" front = O -> count_char "(" back = O ->
  label <> "" -> count_char "]" label = O ->
  stem <> "" -> count_char ")" stem = O ->
  let path := stem ++ ".md" in
  let doc := front ++ placeholder label path ++ back in
  (forall content,
     path_exists (world st) path = true ->
     read_text (world st) path = Ok content ->
     content <> "" ->
     replace_docs_links doc st
     = (Ok (front ++ content ++ back),
        State (world st) (console st ++ [generating path; replacing path])%list))
  /\ (path_exists (world st) path = false ->
      replace_docs_links doc st
      = (Ok doc, State (world st) (console st ++ [not_found path])%list)).
Proof.
  intros Hfront Hback Hlabel Hlabel' Hstem Hstem' path doc.
  assert (Hfind : Re.findall docs_pattern 3 doc = [[label; path; "md"]]).
  { unfold doc, path. change (stem ++ ".md") with (stem ++ "." ++ "md").
    unfold Re.findall. rewrite findall_from_copy by exact Hfront.
    rewrite findall_here by auto.
    rewrite findall_without_opening; [reflexivity|].
    now apply contains_needs_first. }
  split.
  - intros content Hexists Hread Hcontent.
    unfold replace_docs_links. rewrite Hfind. cbn [resolve_matches].
    unfold mbind.
    rewrite (resolve_match_markdown label path "md" doc content st Hexists
               (endswith_app stem ".md") Hread Hcontent).
    unfold ret. do 2 f_equal.
    unfold doc, replace, placeholder.
    change ("([docs: " ++ label ++ "](./" ++ path ++ "))")
      with (String "(" ("[docs: " ++ label ++ "](./" ++ path ++ "))")).
    rewrite replace_from_copy by exact Hfront.
    rewrite replace_from_here.
    rewrite replace_from_absent; [reflexivity|].
    now apply contains_needs_first.
  - intros Hmissing.
    unfold replace_docs_links. rewrite Hfind. cbn [resolve_matches].
    unfold mbind.
    now rewrite (resolve_match_missing label path "md" doc st Hmissing).
Qed.

Lemma single_reference_witness :
  replace_docs_links ("See " ++ placeholder "Example" ("NOTES" ++ ".md") ++ ".")
    (State Demo.with_notes [])
  = (Ok ("See " ++ "Hello" ++ "."),
     State Demo.with_notes
       ([] ++ [generating ("NOTES" ++ ".md"); replacing ("NOTES" ++ ".md")])%list).
Proof.
  apply (proj1 (single_reference (host := Demo.demo_host) "See " "Example" "NOTES" "."
                  (State Demo.with_notes [])
                  ltac:(reflexivity) ltac:(reflexivity) ltac:(discriminate)
                  ltac:(reflexivity) ltac:(discriminate) ltac:(reflexivity))
           "Hello");
    try (vm_compute; reflexivity). discriminate.
Defined.

Section OtherExtensions.

Lemma longest_first_none {R : Type} (k : string -> option R) (w rest : string) :
  (forall u s, w = u ++ s -> u <> "" -> k (s ++ rest) = None) ->
  longest_first k w rest = None.
Proof.
  induction w as [|d w IH]; intros Hall; [reflexivity|].
  cbn [longest_first]. rewrite IH.
  - apply (Hall (String d "") w); [reflexivity | discriminate].
  - intros u s -> Hu. apply (Hall (String d u) s); [reflexivity | discriminate].
Qed.

(** A run in front of [c] hands over only its longest split when what
    follows must start with [c]. *)
Lemma longest_first_last {R : Type} (c : ascii) (k : string -> option R)
    (w rest : string) :
  w <> "" -> count_char c w = O ->
  (forall d s, Ascii.eqb d c = false -> k (String d s) = None) ->
  longest_first k w rest = k rest.
Proof.
  intros Hw Hfree Hk. induction w as [|d w IH]; [contradiction|].
  apply count_char_cons_zero in Hfree as [Hd Hfree].
  cbn [longest_first]. destruct w as [|d' w].
  - reflexivity.
  - rewrite IH by (discriminate || assumption).
    apply count_char_cons_zero in Hfree as [Hd' _].
    destruct (k rest) eqn:Hrest; [reflexivity|].
    change (String d' w ++ rest) with (String d' (w ++ rest)).
    now apply Hk.
Qed.

(** Behind the path only [.md))] and [.rs))] let the match go on. *)
Lemma extension_fails {R : Type} (s tail : string) (caps : Re.captures)
    (f : string -> Re.captures -> Re.captures)
    (k : string -> Re.captures -> option R) :
  count_char ")" s = O -> s <> ".md" -> s <> ".rs" ->
  Re.run (Re.Cat (Re.Str ".") (Re.Group 3 (Re.Alt (Re.Str "md") (Re.Str "rs"))))
    (s ++ "))" ++ tail) caps
    (fun s1 c1 => Re.run (Re.Str "))") s1 (f s1 c1) k)
  = None.
Proof.
  intros Hfree Hmd Hrs.
  destruct s as [|a s]; [reflexivity|].
  apply count_char_cons_zero in Hfree as [_ Hfree].
  destruct (Ascii.eqb a ".") eqn:Ha.
  2:{ cbn [append Re.run String.prefix].
      destruct (ascii_dec "." a) as [<-|_]; [discriminate Ha | reflexivity]. }
  apply Ascii.eqb_eq in Ha as ->.
  destruct s as [|b s]; [reflexivity|].
  apply count_char_cons_zero in Hfree as [_ Hfree].
  destruct s as [|c s].
  { cbn [append Re.run String.prefix Re.drop String.length].
    destruct (ascii_dec "m" b); destruct (ascii_dec "r" b); reflexivity. }
  apply count_char_cons_zero in Hfree as [_ Hfree].
  destruct s as [|e s].
  - cbn [append Re.run String.prefix Re.drop String.length].
    destruct (ascii_dec "m" b) as [Hm|Hm]; destruct (ascii_dec "d" c) as [Hd|Hd];
      destruct (ascii_dec "r" b) as [Hr|Hr]; destruct (ascii_dec "s" c) as [Hs|Hs];
      try reflexivity; subst; try discriminate; contradiction.
  - apply count_char_cons_zero in Hfree as [He _].
    cbn [append Re.run String.prefix Re.drop String.length].
    destruct (ascii_dec ")" e) as [<-|_]; [discriminate He|].
    destruct (ascii_dec "m" b); destruct (ascii_dec "r" b);
      destruct (ascii_dec "d" c); destruct (ascii_dec "s" c); reflexivity.
Qed.

Lemma contains_copy (c : ascii) (old a s : string) :
  count_char c a = O ->
  contains (String c old) (a ++ s) = contains (String c old) s.
Proof.
  induction a as [|d a IH]; intros Hfree; [reflexivity|].
  apply count_char_cons_zero in Hfree as [Hd Ha].
  change (String d a ++ s) with (String d (a ++ s)).
  cbn [contains String.prefix].
  destruct (ascii_dec c d) as [->|_]; [now rewrite Ascii.eqb_refl in Hd|].
  now rewrite (IH Ha).
Qed.

Lemma match_other_extension (label path tail : string) :
  label <> "" -> count_char "]" label = O ->
  count_char ")" path = O ->
  endswith ".md" path = false -> endswith ".rs" path = false ->
  Re.match_at docs_pattern (placeholder label path ++ tail) = None.
Proof.
  intros Hlabel Hlabel' Hpath Hmd Hrs.
  unfold Re.match_at, docs_pattern, placeholder.
  rewrite !append_assoc.
  rewrite run_cat, run_str.
  rewrite run_cat, run_group.
  rewrite run_plus_notchar; [|exact Hlabel'|right; eexists; reflexivity].
  rewrite (longest_first_last "]") ; [|exact Hlabel|exact Hlabel'|].
  2:{ intros d s Hd. cbn [Re.run String.prefix].
      destruct (ascii_dec "]" d) as [<-|_]; [discriminate Hd | reflexivity]. }
  rewrite run_cat, run_str.
  rewrite run_cat, run_group, run_cat.
  rewrite run_plus_notchar; [|exact Hpath|right; eexists; reflexivity].
  apply longest_first_none. intros u s -> Hu.
  rewrite count_char_append in Hpath.
  apply extension_fails.
  - lia.
  - intros ->. now rewrite endswith_app in Hmd.
  - intros ->. now rewrite endswith_app in Hrs.
Qed.

End OtherExtensions.

(** X14.  A reference to a path that ends neither in [.md] nor in [.rs] is no
    match: in a document that holds no other opening parenthesis it is left
    as it is, and nothing is printed or written. *)
Theorem other_extension_is_ignored {W : Type} {host : Host W}
    (front label path back : string) (st : state) :
  count_char "(" front = O -> count_char "(" back = O ->
  label <> "" -> count_char "]" label = O -> count_char "(" label = O ->
  count_char ")" path = O -> count_char "(" path = O ->
  endswith ".md" path = false -> endswith ".rs" path = false ->
  let doc := front ++ placeholder label path ++ back in
  Re.findall docs_pattern 3 doc = []
  /\ replace_docs_links doc st = (Ok doc, st).
Proof.
  intros Hfront Hback Hlabel Hlabel' Hlabel'' Hpath Hpath' Hmd Hrs doc.
  assert (Hfind : Re.findall docs_pattern 3 doc = []).
  { unfold doc, Re.findall. rewrite findall_from_copy by exact Hfront.
    pose proof (match_other_extension label path back
                  Hlabel Hlabel' Hpath Hmd Hrs) as Hnone.
    unfold placeholder in *.
    change ("([docs: " ++ label ++ "](./" ++ path ++ "))")
      with (String "(" ("[docs: " ++ label ++ "](./" ++ path ++ "))")) in *.
    change (String "(" ("[docs: " ++ label ++ "](./" ++ path ++ "))") ++ back)
      with (String "(" (("[docs: " ++ label ++ "](./" ++ path ++ "))") ++ back)) in *.
    cbn [Re.findall_from]. rewrite Hnone.
    apply findall_without_opening.
    rewrite !append_assoc.
    change ("[docs: " ++ label ++ "](./" ++ path ++ "))" ++ back)
      with ("[docs: " ++ label ++ "]" ++ String "(" ("./" ++ path ++ "))" ++ back)).
    rewrite <- (append_assoc label), <- (append_assoc "[docs: ").
    rewrite contains_copy.
    2:{ rewrite !count_char_append, Hlabel''. vm_compute; reflexivity. }
    cbn [contains]. apply orb_false_iff. split; [reflexivity|].
    apply contains_needs_first.
    rewrite !count_char_append, Hpath', Hback. vm_compute; reflexivity. }
  split; [exact Hfind|].
  unfold replace_docs_links. now rewrite Hfind.
Qed.

Lemma other_extension_is_ignored_witness :
  Re.findall docs_pattern 3 "see ([docs: Logo](./docs/logo.png)) here" = []
  /\ replace_docs_links (host := Demo.demo_host)
       "see ([docs: Logo](./docs/logo.png)) here"
       (State Demo.with_report [])
     = (Ok "see ([docs: Logo](./docs/logo.png)) here",
        State Demo.with_report []).
Proof.
  exact (other_extension_is_ignored (host := Demo.demo_host)
           "see " "Logo" "docs/logo.png" " here" (State Demo.with_report [])
           ltac:(vm_compute; reflexivity) ltac:(vm_compute; reflexivity)
           ltac:(discriminate) ltac:(vm_compute; reflexivity)
           ltac:(vm_compute; reflexivity) ltac:(vm_compute; reflexivity)
           ltac:(vm_compute; reflexivity) ltac:(vm_compute; reflexivity)
           ltac:(vm_compute; reflexivity)).
Defined.


(** ** The whole run *)

Section MainFacts.
Context {W : Type} {host : Host W}.

(** The renderer reads and neither writes nor prints. *)
Lemma parse_html_coverage_report_run (path : string) (st : state) :
  parse_html_coverage_report path st
  = ((text <- read_text (world st) path ;; report_of_soup (html_parser text))%py, st).
Proof.
  unfold parse_html_coverage_report, mbind, read_file, lift.
  destruct (read_text (world st) path); reflexivity.
Qed.

End MainFacts.

(** X15.  A run in which every step succeeds: [README.md] is written with the base
    document, the table is put at the marker first and the references are
    resolved in the result, [README.md] is then written again with that
    text and [TEST_STATUS.md] with the table alone (references in it
    unresolved); the success line is printed last and the exit status is 0. *)
Theorem main_full_run {W : Type} {host : Host W}
    (w w1 : W) (base text table final : string) (st3 : state) :
  subprocess_run w ["cargo"; "readme"] = (Completed base, w1) ->
  path_exists (write_text w1 "README.md" base) html_file = true ->
  read_text (write_text w1 "README.md" base) html_file = Ok text ->
  report_of_soup (html_parser text) = Ok table ->
  replace_docs_links (replace_test_status base table)
    (State (write_text w1 "README.md" base) [])
  = (Ok final, st3) ->
  run_script w
  = (Ok tt,
     State (write_text (write_text (world st3) "README.md" final)
              "TEST_STATUS.md" table)
       (console st3
        ++ ["README.md and TEST_STATUS.md have been generated successfully."])%list)
  /\ exit_status (fst (run_script w)) = 0.
Proof.
  intros Htool Hexists Hread Htable Hdocs.
  assert (Hrun : run_script w
                 = (Ok tt,
                    State (write_text (write_text (world st3) "README.md" final)
                             "TEST_STATUS.md" table)
                      (console st3
                       ++ ["README.md and TEST_STATUS.md have been generated successfully."])%list)).
  { unfold run_script, main. unfold mbind at 1.
    rewrite (run_cargo_readme_completed None (State w []) base w1 Htool).
    unfold mbind at 1. unfold write_to_file at 1. cbn [world console].
    rewrite Hexists. cbn [negb]. unfold mbind at 1.
    rewrite parse_html_coverage_report_run. cbn [world].
    rewrite Hread. cbn [bind]. rewrite Htable.
    unfold mbind at 1. rewrite Hdocs. reflexivity. }
  rewrite Hrun. split; reflexivity.
Qed.

Lemma main_full_run_witness :
  run_script Demo.with_report
  = (Ok tt,
     State (write_text
              (write_text
                 (world (State (write_text Demo.with_report "README.md"
                                  ("# Title" ++ String LF
                                   (test_status_marker ++ String LF "")))
                           []))
                 "README.md"
                 ("# Title" ++ String LF
                  (generate_header ++ lib_line ++ String LF (String LF ""))))
              "TEST_STATUS.md" (generate_header ++ lib_line ++ String LF ""))
       ([] ++ ["README.md and TEST_STATUS.md have been generated successfully."])%list)
  /\ exit_status (fst (run_script Demo.with_report)) = 0.
Proof.
  apply (main_full_run Demo.with_report Demo.with_report
           ("# Title" ++ String LF (test_status_marker ++ String LF ""))
           Demo.report_html
           (generate_header ++ lib_line ++ String LF "")
           ("# Title" ++ String LF
            (generate_header ++ lib_line ++ String LF (String LF "")))
           (State (write_text Demo.with_report "README.md"
                     ("# Title" ++ String LF (test_status_marker ++ String LF "")))
              []));
    vm_compute; reflexivity.
Defined.

(** X16.  An exception in steps 4 to 6 is not caught: it leaves [main] with the
    exit status 1, [README.md] written once with the base document and
    [TEST_STATUS.md] not written, whether the report cannot be read, a row
    of it does not parse, or the resolver raises. *)
Theorem main_stops_at_exception {W : Type} {host : Host W}
    (w w1 : W) (base : string) (e : exn) :
  subprocess_run w ["cargo"; "readme"] = (Completed base, w1) ->
  path_exists (write_text w1 "README.md" base) html_file = true ->
  (read_text (write_text w1 "README.md" base) html_file = Raise e ->
   run_script w = (Raise e, State (write_text w1 "README.md" base) []))
  /\ (forall text,
        read_text (write_text w1 "README.md" base) html_file = Ok text ->
        report_of_soup (html_parser text) = Raise e ->
        run_script w = (Raise e, State (write_text w1 "README.md" base) []))
  /\ (forall text table st3,
        read_text (write_text w1 "README.md" base) html_file = Ok text ->
        report_of_soup (html_parser text) = Ok table ->
        replace_docs_links (replace_test_status base table)
          (State (write_text w1 "README.md" base) [])
        = (Raise e, st3) ->
        run_script w = (Raise e, st3)).
Proof.
  intros Htool Hexists.
  assert (Hstart :
            run_script w
            = match (text <- read_text (write_text w1 "README.md" base) html_file ;;
                     report_of_soup (html_parser text))%py with
              | Ok table =>
                  match replace_docs_links (replace_test_status base table)
                          (State (write_text w1 "README.md" base) []) with
                  | (Ok final, st3) =>
                      (write_to_file "README.md" final ;;
                       write_to_file "TEST_STATUS.md" table ;;
                       print "README.md and TEST_STATUS.md have been generated successfully.")%script st3
                  | (Raise e', st3) => (Raise e', st3)
                  end
              | Raise e' => (Raise e', State (write_text w1 "README.md" base) [])
              end).
  { unfold run_script, main. unfold mbind at 1.
    rewrite (run_cargo_readme_completed None (State w []) base w1 Htool).
    unfold mbind at 1. unfold write_to_file at 1. cbn [world console].
    rewrite Hexists. cbn [negb]. unfold mbind at 1.
    rewrite parse_html_coverage_report_run. cbn [world].
    destruct (bind _ _) as [table|e']; [|reflexivity].
    unfold mbind at 1.
    destruct (replace_docs_links _ _) as [[final|e'] st3]; reflexivity. }
  split; [|split].
  - intros Hread. rewrite Hread in Hstart. exact Hstart.
  - intros text Hread Hreport. rewrite Hread in Hstart. cbn [bind] in Hstart.
    rewrite Hreport in Hstart. exact Hstart.
  - intros text table st3 Hread Hreport Hdocs.
    rewrite Hread in Hstart. cbn [bind] in Hstart.
    rewrite Hreport, Hdocs in Hstart. exact Hstart.
Qed.

Lemma main_stops_at_exception_witness :
  run_script tool_vanishes
  = (Raise OSError,
     State (write_text tool_vanishes "README.md" api_doc) [generating "lib.rs"]).
Proof.
  apply (proj2 (proj2 (main_stops_at_exception (host := Demo.demo_host) tool_vanishes tool_vanishes
                         api_doc OSError
                         ltac:(vm_compute; reflexivity)
                         ltac:(vm_compute; reflexivity)))
           Demo.report_html (generate_header ++ lib_line ++ String LF ""));
    vm_compute; reflexivity.
Defined.


Section Writes.
Context {W : Type} (host : Host W).
#[local] Existing Instance recording.

Lemma run_cargo_readme_writes (args : option (list string)) (st : state (W := W * list (string * string))) :
  written (snd (run_cargo_readme (host := recording host) args st)) = written st.
Proof.
  unfold run_cargo_readme, written. cbn [subprocess_run recording].
  destruct (fst (subprocess_run (fst (world st)) _)); reflexivity.
Qed.

Lemma resolve_match_writes (mt : list string) (readme : string) (st : state (W := W * list (string * string))) :
  written (snd (resolve_match (host := recording host) mt readme st)) = written st.
Proof.
  unfold resolve_match, mbind, lift.
  destruct (item 1 mt) as [path|]; [|reflexivity].
  destruct (item 0 mt) as [label|]; [|reflexivity].
  destruct (path_exists (world st) path); [|reflexivity].
  destruct (endswith ".rs" path).
  - unfold print at 1.
    pose proof (run_cargo_readme_writes
                  (Some ["-i"; path; "--no-template"; "--no-license";
                         "--no-badges"; "--no-title"])
                  (State (world st)
                     (console st ++ [generating path])%list))
      as Htool.
    destruct (run_cargo_readme _ _) as [[content|e] st1]; cbn [snd] in Htool;
      [|exact Htool].
    destruct (truthy content); exact Htool.
  - unfold print at 1, read_file, ret. cbn [world console].
    destruct (read_text _ path) as [content|e]; [|reflexivity].
    destruct (truthy (Some content)); reflexivity.
Qed.

Lemma resolve_matches_writes (matches : list (list string)) :
  forall (readme : string) (st : state (W := W * list (string * string))),
    written (snd (resolve_matches (host := recording host) matches readme st))
    = written st.
Proof.
  induction matches as [|mt matches IH]; intros readme st; [reflexivity|].
  cbn [resolve_matches]. unfold mbind.
  pose proof (resolve_match_writes mt readme st) as Hstep.
  destruct (resolve_match mt readme st) as [[readme'|e] st1]; cbn [snd] in Hstep;
    [|exact Hstep].
  now rewrite IH.
Qed.

(** X17.  Whatever the host answers and whichever paths refuse to be opened,
    the writes of a run are the first none, one, two or three of: the base
    document to [README.md], the final document to [README.md], the table to
    [TEST_STATUS.md].  No other path is ever written, the resolver and the
    renderer write nothing, and a run that stops short of the third write
    after the second was refused [TEST_STATUS.md].  With no path refused
    the run is [main] itself. *)
Theorem main_writes (refused : W -> string -> bool) (w : W) :
  let run := main_checked (host := recording host)
               (fun wl path => refused (fst wl) path) (State (w, []) []) in
  let log := written (snd run) in
  (log = []
   \/ (exists base, log = [("README.md", base)])
   \/ (exists base final,
          log = [("README.md", base); ("README.md", final)]
          /\ fst run = Raise OSError)
   \/ (exists base final table,
          log = [("README.md", base); ("README.md", final);
                 ("TEST_STATUS.md", table)]
          /\ fst run = Ok tt))
  /\ main_checked (host := recording host) (fun _ _ => false)
     = main (host := recording host).
Proof.
  cbv zeta. split; [|reflexivity].
  set (deny := fun (wl : W * list (string * string)) (path : string) =>
                 refused (fst wl) path).
  remember (main_checked (host := recording host) deny (State (w, []) []))
    as run eqn:Hrun.
  unfold main_checked in Hrun. unfold mbind at 1 in Hrun.
  pose proof (run_cargo_readme_writes None (State (w, []) [])) as Htool.
  destruct (run_cargo_readme (host := recording host) None (State (w, []) []))
    as [[[base|]|e] st1]; cbn [snd] in Htool;
    try (left; rewrite Hrun; exact Htool).
  unfold mbind at 1 in Hrun. unfold write_to_file_checked at 1 in Hrun.
  destruct (deny (world st1) "README.md");
    [left; rewrite Hrun; exact Htool|].
  right. unfold write_to_file at 1 in Hrun.
  assert (Hbase : written (State (write_text (world st1) "README.md" base) (console st1))
                  = [("README.md", base)]).
  { change (written (State (write_text (world st1) "README.md" base) (console st1)))
      with (written st1 ++ [("README.md", base)])%list.
    now rewrite Htool. }
  destruct (negb (path_exists
                    (world (State (write_text (world st1) "README.md" base) (console st1)))
                    html_file)).
  - left. exists base. rewrite Hrun. exact Hbase.
  - unfold mbind at 1 in Hrun. rewrite parse_html_coverage_report_run in Hrun.
    destruct (bind _ _) as [table|e]; [|left; exists base; rewrite Hrun; exact Hbase].
    unfold mbind at 1 in Hrun.
    pose proof (resolve_matches_writes
                  (Re.findall docs_pattern 3 (replace_test_status base table))
                  (replace_test_status base table)
                  (State (write_text (world st1) "README.md" base) (console st1)))
      as Hdocs.
    fold (replace_docs_links (host := recording host)
            (replace_test_status base table)) in Hdocs.
    destruct (replace_docs_links (host := recording host) _ _)
      as [[final|e] st3]; cbn [snd] in Hdocs; rewrite Hbase in Hdocs;
      [|left; exists base; rewrite Hrun; exact Hdocs].
    unfold mbind at 1 in Hrun. unfold write_to_file_checked at 1 in Hrun.
    destruct (deny (world st3) "README.md");
      [left; exists base; rewrite Hrun; exact Hdocs|].
    right. unfold write_to_file at 1 in Hrun.
    unfold mbind at 1 in Hrun. unfold write_to_file_checked at 1 in Hrun.
    cbn [world console] in Hrun.
    destruct (deny (write_text (world st3) "README.md" final) "TEST_STATUS.md").
    + left. exists base, final. rewrite Hrun. split; [|reflexivity].
      unfold written in *. cbn [snd world write_text recording].
      now rewrite Hdocs.
    + right. exists base, final, table. rewrite Hrun. split; [|reflexivity].
      unfold written, print, write_to_file in *.
      cbn [snd world console write_text recording].
      now rewrite Hdocs.
Qed.

End Writes.

(** A run in which [TEST_STATUS.md] cannot be opened: [README.md] is
    written twice and the [OSError] leaves [main]. *)
Lemma status_file_refused :
  let run := main_checked (host := recording Demo.demo_host)
               (fun _ path => String.eqb path "TEST_STATUS.md")
               (State (Demo.with_report, []) []) in
  fst run = Raise OSError
  /\ map fst (written (snd run)) = ["README.md"; "README.md"].
Proof. vm_compute. split; reflexivity. Qed.
